(** * Driver safety monitor: the ingestion handler and its statistics

    A shallow embedding of [server2.py]: the [/eye] endpoint ([eye_hook]),
    the statistics handler ([update_statistics]) and the [/reset_stats]
    endpoint ([reset_statistics]), together with the process-wide state
    they mutate ([latest_eye], [eye_statistics]).

    Modelling conventions.
    - A Python value that arrives in a JSON body is a [pyval].
    - A Python [float] is a [pyfloat]: a rational number, an infinity or
      NaN.  Binary64 rounding is not modelled: finite floats are exact
      rationals.
    - A Python [str] is a [string]; [str.lower] acts on the letters A-Z.
    - Python exceptions are values of [exn]; a handler runs in the monad
      [M], which threads the two global dictionaries and keeps every
      mutation made before an exception was raised.
    - The random source and the wall clock are inputs of a request
      ([env]).
    - The two [socketio.emit] calls and the [print] that end [eye_hook]
      change neither dictionary and are left out. *)

From Stdlib Require Import ZArith QArith Qround String Ascii List Bool Lia.
Import ListNotations.

Local Open Scope string_scope.
Local Open Scope Z_scope.
Local Open Scope list_scope.

(** ** Python values *)

Module Py.

(** [float]: finite values are exact rationals. *)
Inductive pyfloat : Type :=
| FNan
| FInf (negative : bool)
| FFin (q : Q).

(** The numbers: [bool] is a subclass of [int], and both compare with
    [float]. *)
Inductive pynum : Type :=
| NBool (b : bool)
| NInt (z : Z)
| NFloat (f : pyfloat).

(** What [json.loads] can produce. *)
#[warnings="-register-all"]
Inductive pyval : Type :=
| PNone
| PBool (b : bool)
| PInt (z : Z)
| PFloat (f : pyfloat)
| PStr (s : string)
| PList (l : list pyval)
| PDict (d : list (string * pyval)).

Definition dict : Type := list (string * pyval).

Inductive exn : Type :=
| TypeError
| ValueError
| AttributeError
| OverflowError
| KeyError.

(** The outcome of evaluating an expression that may raise. *)
Inductive result (A : Type) : Type :=
| Val (a : A)
| Raise (e : exn).
Arguments Val {A} a.
Arguments Raise {A} e.

(** *** Numbers *)

Definition float_of_num (n : pynum) : pyfloat :=
  match n with
  | NBool true => FFin 1
  | NBool false => FFin 0
  | NInt z => FFin (inject_Z z)
  | NFloat f => f
  end.

(** [a > b] on floats; every comparison with NaN is false. *)
Definition float_gtb (a b : pyfloat) : bool :=
  match a, b with
  | FNan, _ | _, FNan => false
  | FInf false, FInf false => false
  | FInf false, _ => true
  | _, FInf false => false
  | FInf true, _ => false
  | _, FInf true => true
  | FFin x, FFin y => negb (Qle_bool x y)
  end.

(** [a <= b] on floats. *)
Definition float_leb (a b : pyfloat) : bool :=
  match a, b with
  | FNan, _ | _, FNan => false
  | FInf true, _ => true
  | _, FInf false => true
  | FInf false, _ => false
  | _, FInf true => false
  | FFin x, FFin y => Qle_bool x y
  end.

Definition float_eqb (a b : pyfloat) : bool :=
  match a, b with
  | FNan, _ | _, FNan => false
  | FInf s, FInf t => Bool.eqb s t
  | FFin x, FFin y => Qeq_bool x y
  | _, _ => false
  end.

(** Python compares an [int] with a [float] by value, without rounding
    the [int]. *)
Definition num_gtb (a b : pynum) : bool :=
  float_gtb (float_of_num a) (float_of_num b).

Definition num_eqb (a b : pynum) : bool :=
  float_eqb (float_of_num a) (float_of_num b).

Definition num_leb (a b : pynum) : bool :=
  float_leb (float_of_num a) (float_of_num b).

(** [0.0 <= f] *)
Definition float_nonneg (f : pyfloat) : bool := float_leb (FFin 0) f.

Definition as_num (v : pyval) : option pynum :=
  match v with
  | PBool b => Some (NBool b)
  | PInt z => Some (NInt z)
  | PFloat f => Some (NFloat f)
  | _ => None
  end.

Definition of_num (n : pynum) : pyval :=
  match n with
  | NBool b => PBool b
  | NInt z => PInt z
  | NFloat f => PFloat f
  end.

(** *** Dictionaries *)

Fixpoint dict_find (k : string) (d : dict) : option pyval :=
  match d with
  | [] => None
  | (k', v) :: r => if String.eqb k k' then Some v else dict_find k r
  end.

(** [d.get(k, default)] *)
Definition dict_get_default (k : string) (default : pyval) (d : dict) : pyval :=
  match dict_find k d with
  | Some v => v
  | None => default
  end.

(** [d.get(k)] *)
Definition dict_get (k : string) (d : dict) : pyval :=
  dict_get_default k PNone d.

(** [d[k]] *)
Definition dict_item (k : string) (d : dict) : result pyval :=
  match dict_find k d with
  | Some v => Val v
  | None => Raise KeyError
  end.

(** [k in d] *)
Definition dict_mem (k : string) (d : dict) : bool :=
  match dict_find k d with
  | Some _ => true
  | None => false
  end.

(** *** Truth value and equality *)

(** [bool(v)] *)
Definition truthy (v : pyval) : bool :=
  match v with
  | PNone => false
  | PBool b => b
  | PInt z => negb (z =? 0)
  | PFloat f => negb (float_eqb f (FFin 0))
  | PStr s => negb (String.eqb s EmptyString)
  | PList l => match l with [] => false | _ => true end
  | PDict d => match d with [] => false | _ => true end
  end.

(** [a == b].  The items of two containers are compared with
    [x is y or x == y]; every NaN that [json.loads] returns is the one
    object [json.decoder.NaN], so inside a container ([inside = true]) NaN
    equals NaN, while at top level [nan == nan] is false. *)
Fixpoint py_eq_in (inside : bool) (a b : pyval) {struct a} : bool :=
  match a, b with
  | PNone, PNone => true
  | PStr s, PStr t => String.eqb s t
  | PList l1, PList l2 =>
      (fix items (xs ys : list pyval) {struct xs} : bool :=
         match xs, ys with
         | [], [] => true
         | x :: xs', y :: ys' => py_eq_in true x y && items xs' ys'
         | _, _ => false
         end) l1 l2
  | PDict d1, PDict d2 =>
      Nat.eqb (List.length d1) (List.length d2) &&
      (fix items (xs : dict) {struct xs} : bool :=
         match xs with
         | [] => true
         | (k, v) :: xs' =>
             match dict_find k d2 with
             | Some w => py_eq_in true v w
             | None => false
             end && items xs'
         end) d1
  | PFloat FNan, PFloat FNan => inside
  | _, _ =>
      match as_num a, as_num b with
      | Some x, Some y => num_eqb x y
      | _, _ => false
      end
  end.

Definition py_eq (a b : pyval) : bool := py_eq_in false a b.
Definition py_ne (a b : pyval) : bool := negb (py_eq a b).

(** *** Strings *)

Definition lower_ascii (c : ascii) : ascii :=
  let n := nat_of_ascii c in
  if (65 <=? n)%nat && (n <=? 90)%nat then ascii_of_nat (n + 32) else c.

(** [s.lower()] *)
Fixpoint lower (s : string) : string :=
  match s with
  | EmptyString => EmptyString
  | String c r => String (lower_ascii c) (lower r)
  end.

(** [sub in s] on two strings. *)
Fixpoint str_contains (sub s : string) : bool :=
  String.prefix sub s ||
  match s with
  | EmptyString => false
  | String _ r => str_contains sub r
  end.

(** [getattr(v, "lower")()]: only [str] has the method. *)
Definition py_lower (v : pyval) : result string :=
  match v with
  | PStr s => Val (lower s)
  | _ => Raise AttributeError
  end.

(** [x in v] for a string [x]: key of a dict, item of a list, substring
    of a string; the other types are not iterable. *)
Definition py_contains_str (x : string) (v : pyval) : result bool :=
  match v with
  | PDict d => Val (dict_mem x d)
  | PList l => Val (existsb (py_eq_in true (PStr x)) l)
  | PStr s => Val (str_contains x s)
  | _ => Raise TypeError
  end.

(** *** Rounding *)

(** Round half to even, as [round] does. *)
Definition round_half_even (q : Q) : Z :=
  let f := Qfloor q in
  match Qcompare (q - inject_Z f)%Q (1 # 2) with
  | Lt => f
  | Gt => f + 1
  | Eq => if Z.even f then f else f + 1
  end.

(** [round(q, 3)] *)
Definition round3 (q : Q) : Q := Qmake (round_half_even (q * 1000)%Q) 1000.

End Py.

(** ** The server *)

Module Server.
Import Py.

(** *** Global state *)

(** [latest_eye].  [status] is the result of [str.lower] and [duration]
    and [ear_value] are results of [float] and [round], so these three
    are typed; the other entries hold whatever the payload carried. *)
Record snapshot : Type := mkSnapshot {
  status : string;
  duration : pyfloat;
  alert_level : pyval;
  alert_type : pyval;
  alert_message : pyval;
  sensitivity : pyval;
  ear_value : pyfloat;
  timestamp : string
}.

(** A [history_entry] of [update_statistics]. *)
Record history_entry : Type := mkEntry {
  h_timestamp : string;
  h_status : pyval;
  h_duration : pyval;
  h_ear_value : pyfloat;
  h_alert_level : pyval;
  h_alert_type : pyval
}.

(** [eye_statistics].  [max_closure_time] starts as the int 0 and is only
    ever assigned a payload duration that compared greater than it; Python
    orders a number only against numbers, so the entry always holds a
    number. *)
Record statistics : Type := mkStatistics {
  total_alerts : Z;
  current_session_start : Q;
  max_closure_time : pynum;
  alert_history : list history_entry
}.

Record world : Type := mkWorld {
  latest_eye : snapshot;
  eye_statistics : statistics
}.

(** The module-level initialisers, at process start time [t0] (clock
    reading [hms0]). *)
Definition initial_latest_eye (hms0 : string) : snapshot :=
  {| status := "open";
     duration := FFin 0;
     alert_level := PNone;
     alert_type := PNone;
     alert_message := PNone;
     sensitivity := PFloat (FFin 1);
     ear_value := FFin 0;
     timestamp := hms0 |}.

Definition fresh_statistics (t : Q) : statistics :=
  {| total_alerts := 0;
     current_session_start := t;
     max_closure_time := NInt 0;
     alert_history := [] |}.

Definition initial_world (hms0 : string) (t0 : Q) : world :=
  {| latest_eye := initial_latest_eye hms0;
     eye_statistics := fresh_statistics t0 |}.

(** *** The handler monad: global state, and exceptions that keep it *)

Definition M (A : Type) : Type := world -> result A * world.

Definition ret {A} (a : A) : M A := fun w => (Val a, w).

Definition bind {A B} (m : M A) (k : A -> M B) : M B :=
  fun w =>
    match m w with
    | (Val a, w') => k a w'
    | (Raise e, w') => (Raise e, w')
    end.

Definition lift {A} (r : result A) : M A := fun w => (r, w).

Definition read_latest_eye : M snapshot := fun w => (Val (latest_eye w), w).
Definition read_statistics : M statistics := fun w => (Val (eye_statistics w), w).

Definition put_latest_eye (s : snapshot) : M unit :=
  fun w => (Val tt, {| latest_eye := s; eye_statistics := eye_statistics w |}).

Definition put_statistics (s : statistics) : M unit :=
  fun w => (Val tt, {| latest_eye := latest_eye w; eye_statistics := s |}).

Definition when (b : bool) (m : M unit) : M unit :=
  if b then m else ret tt.

Notation "x <- m ;; k" := (bind m (fun x => k))
  (at level 61, m at next level, right associativity).
Notation "m ;;; k" := (bind m (fun _ => k))
  (at level 61, right associativity).

(** *** What a request reads from outside the process *)

(** [random_draw] is the value of [random.random()]; [now_snapshot] and
    [now_history] are the two readings of
    [datetime.now().strftime("%H:%M:%S")], the first in [eye_hook] and the
    second in [update_statistics]. *)
Record env : Type := mkEnv {
  random_draw : Q;
  now_snapshot : string;
  now_history : string
}.

(** The body of a POST as [request.get_json(force=True)] sees it: the
    call raises on a body that is not JSON. *)
Inductive body : Type :=
| NotJson
| Json (v : pyval).

Inductive response : Type :=
| Ok200
| Error400 (msg : string)
| Error500 (e : exn).

(** [s[-n:]] *)
Definition last_n {A} (n : nat) (l : list A) : list A :=
  skipn (List.length l - n) l.

Section Handlers.

(** [float(s)] on a string: [None] when it raises [ValueError]. *)
Variable float_of_str : string -> option pyfloat.

(** The least magnitude at which [float(int)] raises [OverflowError]. *)
Definition float_overflow : Z := 2 ^ 1024 - 2 ^ 970.

(** [float(v)] *)
Definition py_float (v : pyval) : result pyfloat :=
  match v with
  | PFloat f => Val f
  | PInt z =>
      if Z.abs z <? float_overflow then Val (FFin (inject_Z z))
      else Raise OverflowError
  | PBool b => Val (float_of_num (NBool b))
  | PStr s =>
      match float_of_str s with
      | Some f => Val f
      | None => Raise ValueError
      end
  | PNone | PList _ | PDict _ => Raise TypeError
  end.

(** [try: duration = float(...) except (ValueError, TypeError): 0.0] *)
Definition parse_duration (data : dict) : result pyfloat :=
  match py_float (dict_get_default "duration" (PFloat (FFin 0)) data) with
  | Val f => Val f
  | Raise ValueError | Raise TypeError => Val (FFin 0)
  | Raise e => Raise e
  end.

(** [random.uniform(a, b)] is [a + (b - a) * random()]. *)
Definition uniform (a b draw : Q) : Q := (a + (b - a) * draw)%Q.

(** The EAR simulation of [eye_hook]. *)
Definition simulate_ear (status : string) (draw : Q) : pyfloat :=
  if String.eqb status "closed" then
    FFin (round3 (uniform (10 # 100) (24 # 100) draw))
  else if String.eqb status "open" then
    FFin (round3 (uniform (250 # 1000) (350 # 1000) draw))
  else FFin 0.

(** [x > eye_statistics["max_closure_time"]] *)
Definition gt_max (x : pyval) (m : pynum) : result bool :=
  match as_num x with
  | Some n => Val (num_gtb n m)
  | None => Raise TypeError
  end.

Definition update_statistics (e : env) (data : dict) (ear : pyfloat) : M unit :=
  latest <- read_latest_eye ;;
  st <- read_statistics ;;
  when (truthy (dict_get "alert_level" data) &&
        py_ne (dict_get "alert_level" data) (alert_level latest))
    (put_statistics
       {| total_alerts := total_alerts st + 1;
          current_session_start := current_session_start st;
          max_closure_time := max_closure_time st;
          alert_history := alert_history st |}) ;;;
  st <- read_statistics ;;
  (if py_eq (dict_get "status" data) (PStr "closed") then
     longer <- lift (gt_max (dict_get_default "duration" (PInt 0) data)
                            (max_closure_time st)) ;;
     if longer then
       d <- lift (dict_item "duration" data) ;;
       match as_num d with
       | Some n =>
           put_statistics
             {| total_alerts := total_alerts st;
                current_session_start := current_session_start st;
                max_closure_time := n;
                alert_history := alert_history st |}
       | None => lift (Raise TypeError)
       end
     else ret tt
   else ret tt) ;;;
  st <- read_statistics ;;
  let history_entry :=
    {| h_timestamp := now_history e;
       h_status := dict_get "status" data;
       h_duration := dict_get_default "duration" (PInt 0) data;
       h_ear_value := ear;
       h_alert_level := dict_get "alert_level" data;
       h_alert_type := dict_get "alert_type" data |} in
  put_statistics
    {| total_alerts := total_alerts st;
       current_session_start := current_session_start st;
       max_closure_time := max_closure_time st;
       alert_history := last_n 50 (alert_history st ++ [history_entry]) |}.

(** The body of [eye_hook] after [get_json] returned [data]; [Val] carries
    the response of an explicit [return]. *)
Definition eye_hook_body (e : env) (data : pyval) : M response :=
  if negb (truthy data) then ret (Error400 "Missing 'status' in data")
  else
    has_status <- lift (py_contains_str "status" data) ;;
    if negb has_status then ret (Error400 "Missing 'status' in data")
    else
      d <- lift (match data with
                 | PDict d => Val d
                 | _ => Raise AttributeError
                 end) ;;
      duration <- lift (parse_duration d) ;;
      status <- lift (py_lower (dict_get_default "status" (PStr "unknown") d)) ;;
      let ear := simulate_ear status (random_draw e) in
      put_latest_eye
        {| status := status;
           duration := duration;
           alert_level := dict_get "alert_level" d;
           alert_type := dict_get "alert_type" d;
           alert_message := dict_get "alert_message" d;
           sensitivity := dict_get_default "sensitivity" (PFloat (FFin 1)) d;
           ear_value := ear;
           timestamp := now_snapshot e |} ;;;
      update_statistics e d ear ;;;
      ret Ok200.

(** [POST /eye]: an exception that escapes the view is answered with
    status 500; the globals keep what was written before it. *)
Definition eye_hook (e : env) (b : body) (w : world) : response * world :=
  match b with
  | NotJson => (Error400 "Invalid JSON", w)
  | Json data =>
      match eye_hook_body e data w with
      | (Val r, w') => (r, w')
      | (Raise x, w') => (Error500 x, w')
      end
  end.

(** [POST /reset_stats] at time [now]. *)
Definition reset_statistics (now : Q) (w : world) : response * world :=
  (Ok200, {| latest_eye := latest_eye w;
             eye_statistics := fresh_statistics now |}).

(** *** Runs of the server *)

Inductive op : Type :=
| Ingest (e : env) (b : body)
| Reset (now : Q).

Definition step (o : op) (w : world) : response * world :=
  match o with
  | Ingest e b => eye_hook e b w
  | Reset now => reset_statistics now w
  end.

(** The world after a sequence of requests, served one at a time. *)
Definition run (ops : list op) (w : world) : world :=
  fold_left (fun w o => snd (step o w)) ops w.

(** The responses to a sequence of requests. *)
Fixpoint responses (ops : list op) (w : world) : list response :=
  match ops with
  | [] => []
  | o :: r => fst (step o w) :: responses r (snd (step o w))
  end.

End Handlers.

(** *** What a successful ingest writes, as functions of the request *)

(** The status [eye_hook] works with. *)
Definition status_of (d : dict) : string :=
  match py_lower (dict_get_default "status" (PStr "unknown") d) with
  | Val s => s
  | Raise _ => EmptyString
  end.

Definition ear_of (e : env) (d : dict) : pyfloat :=
  simulate_ear (status_of d) (random_draw e).

(** The [history_entry] of [update_statistics]. *)
Definition entry_of (e : env) (d : dict) : history_entry :=
  {| h_timestamp := now_history e;
     h_status := dict_get "status" d;
     h_duration := dict_get_default "duration" (PInt 0) d;
     h_ear_value := ear_of e d;
     h_alert_level := dict_get "alert_level" d;
     h_alert_type := dict_get "alert_type" d |}.

(** [max_closure_time] after the second statement of
    [update_statistics], when it raises nothing. *)
Definition new_max (d : dict) (m : pynum) : pynum :=
  if py_eq (dict_get "status" d) (PStr "closed") then
    match as_num (dict_get_default "duration" (PInt 0) d) with
    | Some n => if num_gtb n m then n else m
    | None => m
    end
  else m.

(** Whether the first statement of [update_statistics] counts an alert. *)
Definition counts_alert (d : dict) (latest : snapshot) : bool :=
  truthy (dict_get "alert_level" d) &&
  py_ne (dict_get "alert_level" d) (alert_level latest).

(** The statistics after the first statement of [update_statistics]. *)
Definition counted (d : dict) (w : world) : statistics :=
  {| total_alerts :=
       if counts_alert d (latest_eye w)
       then total_alerts (eye_statistics w) + 1
       else total_alerts (eye_statistics w);
     current_session_start := current_session_start (eye_statistics w);
     max_closure_time := max_closure_time (eye_statistics w);
     alert_history := alert_history (eye_statistics w) |}.

(** The snapshot [eye_hook] writes, [f] being the parsed duration. *)
Definition written (e : env) (d : dict) (f : pyfloat) : snapshot :=
  {| status := status_of d;
     duration := f;
     alert_level := dict_get "alert_level" d;
     alert_type := dict_get "alert_type" d;
     alert_message := dict_get "alert_message" d;
     sensitivity := dict_get_default "sensitivity" (PFloat (FFin 1)) d;
     ear_value := ear_of e d;
     timestamp := now_snapshot e |}.

(** The world a completed ingest leaves. *)
Definition ingested (e : env) (d : dict) (f : pyfloat) (w : world) : world :=
  let w1 := {| latest_eye := written e d f;
               eye_statistics := eye_statistics w |} in
  {| latest_eye := written e d f;
     eye_statistics :=
       {| total_alerts := total_alerts (counted d w1);
          current_session_start := current_session_start (eye_statistics w);
          max_closure_time := new_max d (max_closure_time (eye_statistics w));
          alert_history :=
            last_n 50 (alert_history (eye_statistics w) ++ [entry_of e d]) |} |}.

(** The answer of [eye_hook] once the snapshot is written. *)
Definition after_write (e : env) (d : dict) (f : pyfloat) (w : world)
  : response * world :=
  match update_statistics e d (ear_of e d)
          {| latest_eye := written e d f;
             eye_statistics := eye_statistics w |} with
  | (Val _, w') => (Ok200, w')
  | (Raise x, w') => (Error500 x, w')
  end.

(** The exception the second statement of [update_statistics] raises, if
    any: the comparison of a non-number with the maximum, or the
    subscription [data['duration']] when the key is absent. *)
Definition raised_in_update (d : dict) (m : pynum) : option exn :=
  if py_eq (dict_get "status" d) (PStr "closed") then
    match as_num (dict_get_default "duration" (PInt 0) d) with
    | None => Some TypeError
    | Some n =>
        if num_gtb n m then
          match dict_find "duration" d with
          | None => Some KeyError
          | Some _ => None
          end
        else None
    end
  else None.

(** The world an ingest leaves when [update_statistics] raises. *)
Definition interrupted (e : env) (d : dict) (f : pyfloat) (w : world) : world :=
  {| latest_eye := written e d f;
     eye_statistics :=
       counted d {| latest_eye := written e d f;
                    eye_statistics := eye_statistics w |} |}.

(** *** Vocabulary of the properties *)

(** A finite float between two bounds. *)
Definition float_between (lo hi : Q) (f : pyfloat) : Prop :=
  exists q, f = FFin q /\ (lo <= q)%Q /\ (q <= hi)%Q.

(** The range of the simulated metric [m] for the payload status [s]. *)
Definition metric_in_range (s : string) (m : pyfloat) : Prop :=
  (lower s = "closed" -> float_between (10 # 100) (24 # 100) m) /\
  (lower s = "open" -> float_between (25 # 100) (35 # 100) m) /\
  (lower s <> "closed" -> lower s <> "open" -> m = FFin 0).

Definition is_ok (r : response) : bool :=
  match r with
  | Ok200 => true
  | _ => false
  end.

(** The requests that post the given objects. *)
Definition ingests (reqs : list (env * dict)) : list op :=
  map (fun r => Ingest (fst r) (Json (PDict (snd r)))) reqs.

Definition entries (reqs : list (env * dict)) : list history_entry :=
  map (fun r => entry_of (fst r) (snd r)) reqs.

(** What holds of the statistics in every world the server reaches. *)
Definition stats_inv (w : world) : Prop :=
  (List.length (alert_history (eye_statistics w)) <= 50)%nat /\
  num_leb (NInt 0) (max_closure_time (eye_statistics w)) = true.

(** A body is an object with a [status] key. *)
Definition has_status_field (b : body) : bool :=
  match b with
  | Json (PDict d) => dict_mem "status" d
  | _ => false
  end.

(** A body of the documented shape: an object, or nothing that parses to
    one (no JSON at all, or [null]). *)
Definition object_or_nothing (b : body) : bool :=
  match b with
  | NotJson | Json PNone | Json (PDict _) => true
  | Json _ => false
  end.

(** *** Concrete inputs *)

Definition digit_of (c : ascii) : option Z :=
  let n := nat_of_ascii c in
  if (48 <=? n)%nat && (n <=? 57)%nat then Some (Z.of_nat (n - 48)) else None.

Fixpoint digits (acc : Z) (s : string) : option Z :=
  match s with
  | EmptyString => Some acc
  | String c r =>
      match digit_of c with
      | Some k => digits (10 * acc + k) r
      | None => None
      end
  end.

(** A [float_of_str] for the concrete runs: it reads a run of decimal
    digits with an optional minus sign and rejects every other string,
    and agrees with [float] on the strings those runs contain. *)
Definition float_of_plain (s : string) : option pyfloat :=
  match s with
  | EmptyString => None
  | String "-" (String _ _ as t) =>
      option_map (fun z => FFin (inject_Z (- z))) (digits 0 t)
  | _ => option_map (fun z => FFin (inject_Z z)) (digits 0 s)
  end.

Definition env0 : env :=
  {| random_draw := 1 # 2;
     now_snapshot := "10:00:00";
     now_history := "10:00:01" |}.

Definition world0 : world := initial_world "09:00:00" 0.

Definition danger_after_none : dict :=
  [("status", PStr "open"); ("alert_level", PStr "danger")].

Definition closed_abc : dict :=
  [("status", PStr "closed"); ("duration", PStr "abc")].

Definition upper_closed_5 : dict :=
  [("status", PStr "CLOSED"); ("duration", PFloat (FFin 5))].

Definition closed_5 : dict :=
  [("status", PStr "closed"); ("duration", PFloat (FFin 5))].

Definition open_minus_5 : dict :=
  [("status", PStr "open"); ("duration", PInt (-5))].

Definition upper_open_abc : dict :=
  [("status", PStr "OPEN"); ("duration", PStr "abc")].

Definition no_status : dict :=
  [("duration", PFloat (FFin 5)); ("alert_level", PStr "danger")].

End Server.

(** ** What the server sends to the dashboards *)

Module Events.
Import Py Server.

(** [drivers_data] *)
Definition drivers_data : list dict :=
  [ [("id", PInt 1); ("name", PStr "John Driver");
     ("vehicle", PStr "Truck A123"); ("status", PStr "safe");
     ("location", PStr "Highway I-95"); ("phone", PStr "+1-555-0101")];
    [("id", PInt 2); ("name", PStr "Sarah Wilson");
     ("vehicle", PStr "Van B456"); ("status", PStr "warning");
     ("location", PStr "Route 66"); ("phone", PStr "+1-555-0102")];
    [("id", PInt 3); ("name", PStr "Mike Johnson");
     ("vehicle", PStr "Car C789"); ("status", PStr "danger");
     ("location", PStr "City Center"); ("phone", PStr "+1-555-0103")] ].

(** The Socket.IO events of the server, each with its payload as it is
    when [socketio.emit] is called. *)
Inductive event : Type :=
| eye_status (s : snapshot)
| statistics_update (st : statistics)
| drivers_update (l : list dict)
| sos_alert (d : dict)
| message (v : pyval).

(** One call of [socketio.emit]: [room = None] reaches every connected
    client, [room = Some sid] the client [sid] alone. *)
Record emission : Type := mkEmission {
  emitted : event;
  room : option string
}.

Definition to_all (ev : event) : emission :=
  {| emitted := ev; room := None |}.

Definition to_room (sid : string) (ev : event) : emission :=
  {| emitted := ev; room := Some sid |}.

Section Emitting.

Variable float_of_str : string -> option pyfloat.

(** [eye_hook] with its two [socketio.emit] calls.  They stand between
    [update_statistics] and [return jsonify({"ok": True}), 200]: they run
    exactly when the view reaches that return, on the globals as they
    are then. *)
Definition eye_hook_emitting (e : env) (b : body) (w : world)
  : response * world * list emission :=
  let (r, w') := eye_hook float_of_str e b w in
  (r, w',
   match r with
   | Ok200 => [to_all (eye_status (latest_eye w'));
               to_all (statistics_update (eye_statistics w'))]
   | _ => []
   end).

End Emitting.

(** [handle_connect] for the client [sid]. *)
Definition handle_connect (sid : string) (w : world) : list emission :=
  [to_room sid (eye_status (latest_eye w));
   to_room sid (statistics_update (eye_statistics w));
   to_room sid (drivers_update drivers_data)].


(** [handle_message] *)
Definition handle_message (data : pyval) : list emission :=
  [to_all (message data)].

(** The start of the session after a sequence of requests: the time of
    the last reset, if any. *)
Definition session_start_after (ops : list op) (t0 : Q) : Q :=
  fold_left (fun t o => match o with
                        | Reset now => now
                        | Ingest _ _ => t
                        end) ops t0.

End Events.

Import Py Server.

(** ** Facts about the Python operations *)

Section Rounding.

(** Rounding never leaves an interval with integer ends. *)
Lemma round_half_even_between (a b : Z) (q : Q) :
  (inject_Z a <= q)%Q -> (q <= inject_Z b)%Q ->
  a <= round_half_even q <= b.
Proof.
  intros Ha Hb.
  pose proof (Qfloor_le q) as Hf.
  pose proof (Qlt_floor q) as Hc.
  assert (Hlo : a <= Qfloor q).
  { assert (H : (inject_Z a < inject_Z (Qfloor q + 1))%Q)
      by (eapply Qle_lt_trans; eassumption).
    rewrite <- Zlt_Qlt in H. lia. }
  assert (Hhi : Qfloor q <= b).
  { rewrite Zle_Qle. eapply Qle_trans; eassumption. }
  assert (Hup : (inject_Z (Qfloor q) < q)%Q -> Qfloor q + 1 <= b).
  { intros Hlt.
    assert (H : (inject_Z (Qfloor q) < inject_Z b)%Q)
      by (eapply Qlt_le_trans; eassumption).
    rewrite <- Zlt_Qlt in H. lia. }
  assert (Hhalf : ((1 # 2) <= q - inject_Z (Qfloor q))%Q ->
                  (inject_Z (Qfloor q) < q)%Q).
  { intros H.
    apply Qlt_minus_iff.
    eapply Qlt_le_trans; [| exact H]. reflexivity. }
  unfold round_half_even.
  destruct (Qcompare_spec (q - inject_Z (Qfloor q)) (1 # 2)) as [He | Hl | Hg].
  - destruct (Z.even (Qfloor q)); [lia |].
    split; [lia |]. apply Hup, Hhalf. rewrite He. apply Qle_refl.
  - lia.
  - split; [lia |]. apply Hup, Hhalf. apply Qlt_le_weak, Hg.
Qed.

Lemma round3_between (a b : Z) (q : Q) :
  (inject_Z a <= q * 1000)%Q -> (q * 1000 <= inject_Z b)%Q ->
  (a # 1000 <= round3 q)%Q /\ (round3 q <= b # 1000)%Q.
Proof.
  intros Ha Hb.
  destruct (round_half_even_between a b (q * 1000) Ha Hb) as [H1 H2].
  unfold round3, Qle; simpl. lia.
Qed.

(** A draw in [[0, 1)] lands between the two ends. *)
Lemma uniform_between (a b draw : Q) :
  (a <= b)%Q -> (0 <= draw)%Q -> (draw < 1)%Q ->
  (a <= uniform a b draw)%Q /\ (uniform a b draw <= b)%Q.
Proof.
  intros Hab H0 H1. unfold uniform.
  assert (Hd : (0 <= b - a)%Q) by (unfold Qminus; rewrite <- Qle_minus_iff; exact Hab).
  split.
  - rewrite <- (Qplus_0_r a) at 1.
    apply Qplus_le_compat; [apply Qle_refl |].
    apply Qmult_le_0_compat; assumption.
  - assert (H : ((b - a) * draw <= (b - a) * 1)%Q).
    { rewrite !(Qmult_comm (b - a)).
      apply Qmult_le_compat_r; [apply Qlt_le_weak, H1 | exact Hd]. }
    setoid_replace b with (a + (b - a) * 1)%Q at 2 by ring.
    apply Qplus_le_compat; [apply Qle_refl | exact H].
Qed.

End Rounding.

Section Order.

Lemma float_leb_refl (f : pyfloat) : f <> FNan -> float_leb f f = true.
Proof.
  destruct f as [| [|] | q]; simpl; try congruence; intros _.
  apply Qle_bool_iff, Qle_refl.
Qed.

Lemma float_leb_trans (a b c : pyfloat) :
  float_leb a b = true -> float_leb b c = true -> float_leb a c = true.
Proof.
  destruct a as [| [|] | x], b as [| [|] | y], c as [| [|] | z];
    simpl; try congruence.
  rewrite !Qle_bool_iff. apply Qle_trans.
Qed.

Lemma float_gtb_leb (a b : pyfloat) :
  float_gtb a b = true -> float_leb b a = true.
Proof.
  destruct a as [| [|] | x], b as [| [|] | y]; simpl; try congruence.
  intros H. apply Qle_bool_iff.
  destruct (Qle_bool x y) eqn:E; [discriminate |].
  destruct (Qlt_le_dec y x) as [Hlt | Hle].
  - apply Qlt_le_weak, Hlt.
  - apply Qle_bool_iff in Hle. congruence.
Qed.

Lemma float_leb_not_nan (a b : pyfloat) : float_leb a b = true -> b <> FNan.
Proof. destruct a as [| [|] | x], b as [| [|] | y]; simpl; congruence. Qed.

Lemma num_leb_trans (a b c : pynum) :
  num_leb a b = true -> num_leb b c = true -> num_leb a c = true.
Proof. apply float_leb_trans. Qed.

(** A number that bounds something from above bounds itself. *)
Lemma num_leb_refl_above (a b : pynum) :
  num_leb a b = true -> num_leb b b = true.
Proof. intros H. apply float_leb_refl. exact (float_leb_not_nan _ _ H). Qed.

Lemma num_gtb_leb (a b : pynum) : num_gtb a b = true -> num_leb b a = true.
Proof. apply float_gtb_leb. Qed.

(** [new_max] never goes below a maximum that is not NaN. *)
Lemma new_max_above (d : dict) (m : pynum) :
  num_leb m m = true -> num_leb m (new_max d m) = true.
Proof.
  intros Hm. unfold new_max.
  destruct (py_eq _ _); [| exact Hm].
  destruct (as_num _) as [n |]; [| exact Hm].
  destruct (num_gtb n m) eqn:E; [| exact Hm].
  apply num_gtb_leb, E.
Qed.

End Order.

Section Strings.

Lemma eqb_closed_open : String.eqb "closed" "open" = false.
Proof. reflexivity. Qed.

(** Only the string [closed] itself is [== 'closed']. *)
Lemma py_eq_str (v : pyval) (s : string) :
  py_eq v (PStr s) = true <-> v = PStr s.
Proof.
  unfold py_eq. split.
  - destruct v as [| b | z | f | t | l | d]; simpl; try discriminate.
    + destruct f; discriminate.
    + intros H. apply String.eqb_eq in H. congruence.
  - intros ->. simpl. apply String.eqb_refl.
Qed.

(** A string is never [!=] to itself, and neither is [None]. *)
Lemma py_ne_str_refl (s : string) : py_ne (PStr s) (PStr s) = false.
Proof. unfold py_ne, py_eq. simpl. now rewrite String.eqb_refl. Qed.

End Strings.

(** ** The effect of the handlers *)

Section Effects.

Variable float_of_str : string -> option pyfloat.

(** [update_statistics] either raises in its second statement, and then
    only the alert counter may have moved, or completes, and then it has
    written the new maximum and the new history. *)
Lemma update_statistics_eq (e : env) (d : dict) (ear : pyfloat) (w : world) :
  update_statistics e d ear w =
  match raised_in_update d (max_closure_time (eye_statistics w)) with
  | Some x =>
      (Raise x, {| latest_eye := latest_eye w; eye_statistics := counted d w |})
  | None =>
      (Val tt,
       {| latest_eye := latest_eye w;
          eye_statistics :=
            {| total_alerts := total_alerts (counted d w);
               current_session_start := current_session_start (eye_statistics w);
               max_closure_time := new_max d (max_closure_time (eye_statistics w));
               alert_history :=
                 last_n 50 (alert_history (eye_statistics w) ++
                   [{| h_timestamp := now_history e;
                       h_status := dict_get "status" d;
                       h_duration := dict_get_default "duration" (PInt 0) d;
                       h_ear_value := ear;
                       h_alert_level := dict_get "alert_level" d;
                       h_alert_type := dict_get "alert_type" d |}]) |} |})
  end.
Proof.
  destruct w as [latest [ta ss m h]].
  unfold update_statistics, raised_in_update, counted, counts_alert, new_max,
    bind, when, ret, lift, read_latest_eye, read_statistics, put_statistics,
    gt_max, dict_item, dict_get_default.
  destruct (truthy _ && py_ne _ _); cbn -[last_n py_eq num_gtb];
    (destruct (py_eq (dict_get "status" d) (PStr "closed")); [| reflexivity]);
    destruct (dict_find "duration" d) as [v |]; cbn -[last_n num_gtb].
  all: try (destruct (as_num v) as [n |] eqn:Hn;
            [destruct (num_gtb n m); cbn -[last_n num_gtb]; rewrite ?Hn |];
            reflexivity).
  all: destruct (num_gtb (NInt 0) m); reflexivity.
Qed.

Lemma after_write_eq (e : env) (d : dict) (f : pyfloat) (w : world) :
  after_write e d f w =
  match raised_in_update d (max_closure_time (eye_statistics w)) with
  | Some x => (Error500 x, interrupted e d f w)
  | None => (Ok200, ingested e d f w)
  end.
Proof.
  unfold after_write. rewrite update_statistics_eq.
  cbn [latest_eye eye_statistics].
  destruct (raised_in_update _ _); reflexivity.
Qed.

(** [eye_hook] on an object whose [status] is a string and whose duration
    does not overflow: the snapshot is written, then the statistics are
    updated. *)
Lemma eye_hook_writes (e : env) (d : dict) (s : string) (f : pyfloat) (w : world) :
  dict_find "status" d = Some (PStr s) ->
  parse_duration float_of_str d = Val f ->
  eye_hook float_of_str e (Json (PDict d)) w = after_write e d f w.
Proof.
  intros Hs Hf.
  assert (Hg : dict_get_default "status" (PStr "unknown") d = PStr s)
    by (unfold dict_get_default; now rewrite Hs).
  assert (Ht : truthy (PDict d) = true)
    by (destruct d; [discriminate | reflexivity]).
  unfold after_write, written, ear_of, status_of.
  unfold eye_hook, eye_hook_body, bind, lift, ret, put_latest_eye.
  rewrite Ht. cbn [negb py_contains_str].
  unfold dict_mem. rewrite Hs, Hf, Hg. cbn [negb py_lower].
  destruct (update_statistics _ _ _ _) as [[[] | x] w']; reflexivity.
Qed.

(** Every other request leaves the world as it was and is not answered
    with a success. *)
Lemma eye_hook_cases (e : env) (b : body) (w : world) :
  (snd (eye_hook float_of_str e b w) = w /\
   fst (eye_hook float_of_str e b w) <> Ok200) \/
  (exists d s f,
      b = Json (PDict d) /\
      dict_find "status" d = Some (PStr s) /\
      parse_duration float_of_str d = Val f).
Proof.
  destruct b as [| v]; [left; split; [reflexivity | discriminate] |].
  unfold eye_hook, eye_hook_body, bind, lift, ret.
  destruct (truthy v) eqn:Ht; cbn [negb];
    [| left; split; [reflexivity | discriminate]].
  destruct v as [| b | z | x | t | l | d]; cbn [py_contains_str];
    try (left; split; [reflexivity | discriminate]).
  - destruct (str_contains "status" t); cbn [negb];
      left; split; (reflexivity || discriminate).
  - destruct (existsb _ l); cbn [negb];
      left; split; (reflexivity || discriminate).
  - unfold dict_mem.
    destruct (dict_find "status" d) as [v |] eqn:Hs; cbn [negb];
      [| left; split; [reflexivity | discriminate]].
    destruct (parse_duration float_of_str d) as [f | x] eqn:Hf;
      [| left; split; [reflexivity | discriminate]].
    unfold dict_get_default. rewrite Hs.
    destruct v as [| b | z | x | t | l | d'];
      try (left; split; [reflexivity | discriminate]).
    right. now exists d, t, f.
Qed.

(** A request answered with a success was an object with a string
    [status], and left the world [ingested]. *)
Lemma eye_hook_ok_inv (e : env) (b : body) (w w' : world) :
  eye_hook float_of_str e b w = (Ok200, w') ->
  exists d s f,
    b = Json (PDict d) /\
    dict_find "status" d = Some (PStr s) /\
    parse_duration float_of_str d = Val f /\
    w' = ingested e d f w.
Proof.
  intros H.
  destruct (eye_hook_cases e b w) as [[_ Hno] | (d & s & f & -> & Hs & Hf)].
  - rewrite H in Hno. now elim Hno.
  - exists d, s, f. repeat split; try assumption.
    rewrite (eye_hook_writes e d s f w Hs Hf), after_write_eq in H.
    destruct (raised_in_update _ _); congruence.
Qed.

(** The payload's alert level always equals the snapshot's by the time
    [update_statistics] compares them, so a level that is [None] or a string
    is never counted. *)
Lemma counts_alert_after_write (e : env) (d : dict) (f : pyfloat) :
  (dict_get "alert_level" d = PNone \/
   exists s, dict_get "alert_level" d = PStr s) ->
  counts_alert d (written e d f) = false.
Proof.
  unfold counts_alert, written; cbn [alert_level].
  intros [-> | [s ->]].
  - reflexivity.
  - rewrite py_ne_str_refl. apply andb_false_r.
Qed.

Lemma alert_counter_frozen (e : env) (d : dict) (w w' : world) :
  (dict_get "alert_level" d = PNone \/
   exists s, dict_get "alert_level" d = PStr s) ->
  eye_hook float_of_str e (Json (PDict d)) w = (Ok200, w') ->
  total_alerts (eye_statistics w') = total_alerts (eye_statistics w).
Proof.
  intros Hl H.
  apply eye_hook_ok_inv in H as (d' & s & f & Hb & _ & _ & ->).
  injection Hb as <-.
  unfold ingested, counted; cbn [total_alerts latest_eye eye_statistics].
  now rewrite (counts_alert_after_write e d f Hl).
Qed.

(** [float] fails on a non-number only with [ValueError] or [TypeError],
    which [eye_hook] catches. *)
Lemma parse_duration_non_numeric (d : dict) (v : pyval) :
  dict_find "duration" d = Some v ->
  as_num v = None ->
  exists f,
    parse_duration float_of_str d = Val f /\
    (forall x, py_float float_of_str v = Raise x -> f = FFin 0).
Proof.
  intros Hd Hn. unfold parse_duration, dict_get_default. rewrite Hd.
  destruct v as [| b | z | x | t | l | d']; try discriminate; cbn;
    try (exists (FFin 0); split; [reflexivity | reflexivity]).
  destruct (float_of_str t) as [f |].
  - exists f. split; [reflexivity | discriminate].
  - exists (FFin 0). split; reflexivity.
Qed.

(** A non-numeric duration under the raw status [closed] is compared with
    the maximum, and the comparison raises after the snapshot was
    written. *)
Lemma closed_non_numeric_duration_raises
  (e : env) (d : dict) (v : pyval) (w : world) :
  dict_find "status" d = Some (PStr "closed") ->
  dict_find "duration" d = Some v ->
  as_num v = None ->
  exists f,
    parse_duration float_of_str d = Val f /\
    eye_hook float_of_str e (Json (PDict d)) w =
      (Error500 TypeError, interrupted e d f w).
Proof.
  intros Hs Hd Hn.
  destruct (parse_duration_non_numeric d v Hd Hn) as (f & Hf & _).
  exists f. split; [exact Hf |].
  rewrite (eye_hook_writes e d _ f w Hs Hf), after_write_eq.
  unfold raised_in_update, dict_get, dict_get_default.
  now rewrite Hs, Hd, Hn.
Qed.

(** Under any other status string the raw duration is never compared, and
    a duration that [float] rejects is stored as [0.0]. *)
Lemma malformed_duration_defaults
  (e : env) (d : dict) (s : string) (v : pyval) (x : exn) (w : world) :
  dict_find "status" d = Some (PStr s) ->
  s <> "closed" ->
  dict_find "duration" d = Some v ->
  py_float float_of_str v = Raise x ->
  x = ValueError \/ x = TypeError ->
  eye_hook float_of_str e (Json (PDict d)) w = (Ok200, ingested e d (FFin 0) w).
Proof.
  intros Hs Hne Hd Hx Hov.
  assert (Hf : parse_duration float_of_str d = Val (FFin 0)).
  { unfold parse_duration, dict_get_default. rewrite Hd, Hx.
    now destruct Hov as [-> | ->]. }
  rewrite (eye_hook_writes e d _ _ w Hs Hf), after_write_eq.
  unfold raised_in_update, dict_get, dict_get_default. rewrite Hs.
  destruct (py_eq (PStr s) (PStr "closed")) eqn:Hc; [| reflexivity].
  apply py_eq_str in Hc. congruence.
Qed.

End Effects.

(** ** Lists kept to their last entries *)

Section LastN.

Context {A : Type}.

Lemma last_n_length (n : nat) (l : list A) :
  (List.length (last_n n l) <= n)%nat.
Proof. unfold last_n. rewrite length_skipn. lia. Qed.

Lemma last_n_short (n : nat) (l : list A) :
  (List.length l <= n)%nat -> last_n n l = l.
Proof.
  intros H. unfold last_n.
  replace (List.length l - n)%nat with 0%nat by lia. reflexivity.
Qed.

(** Past the cap, appending drops the head. *)
Lemma last_n_full (n : nat) (l : list A) (x : A) :
  List.length l = n -> (0 < n)%nat -> last_n n (l ++ [x]) = tl l ++ [x].
Proof.
  intros H Hn. unfold last_n. rewrite length_app. cbn.
  replace (List.length l + 1 - n)%nat with 1%nat by lia.
  destruct l; [cbn in H; lia | reflexivity].
Qed.

(** Capping before an append and after it is capping after it. *)
Lemma last_n_app_idem (n : nat) (l k : list A) :
  last_n n (last_n n l ++ k) = last_n n (l ++ k).
Proof.
  destruct (Nat.le_gt_cases (List.length l) n) as [Hle | Hgt].
  - now rewrite (last_n_short n l Hle).
  - unfold last_n. rewrite !length_app, length_skipn.
    rewrite !skipn_app, skipn_skipn, length_skipn.
    f_equal; f_equal; lia.
Qed.

(** The entry appended last survives the cut. *)
Lemma last_n_snoc (n : nat) (l : list A) (x : A) :
  (0 < n)%nat -> exists k, last_n n (l ++ [x]) = k ++ [x].
Proof.
  intros Hn. unfold last_n. rewrite skipn_app, length_app. cbn [List.length].
  replace (List.length l + 1 - n - List.length l)%nat with 0%nat by lia.
  eexists. reflexivity.
Qed.

End LastN.

(** ** Invariants of the statistics *)

Section Invariants.

Variable float_of_str : string -> option pyfloat.

Lemma stats_inv_initial (hms0 : string) (t0 : Q) :
  stats_inv (initial_world hms0 t0).
Proof. split; [cbn; lia | reflexivity]. Qed.

(** An ingest never lowers a maximum that is not NaN, whatever its
    answer. *)
Lemma eye_hook_max_mono (e : env) (b : body) (w : world) :
  let m := max_closure_time (eye_statistics w) in
  num_leb m m = true ->
  num_leb m (max_closure_time
               (eye_statistics (snd (eye_hook float_of_str e b w)))) = true.
Proof.
  intros m Hm.
  destruct (eye_hook_cases float_of_str e b w)
    as [[-> _] | (d & s & f & -> & Hs & Hf)]; [exact Hm |].
  rewrite (eye_hook_writes float_of_str e d s f w Hs Hf), after_write_eq.
  destruct (raised_in_update _ _); cbn; [exact Hm |].
  now apply new_max_above.
Qed.

Lemma eye_hook_history_length (e : env) (b : body) (w : world) :
  (List.length (alert_history (eye_statistics w)) <= 50)%nat ->
  (List.length
     (alert_history (eye_statistics (snd (eye_hook float_of_str e b w))))
   <= 50)%nat.
Proof.
  intros Hh.
  destruct (eye_hook_cases float_of_str e b w)
    as [[-> _] | (d & s & f & -> & Hs & Hf)]; [exact Hh |].
  rewrite (eye_hook_writes float_of_str e d s f w Hs Hf), after_write_eq.
  destruct (raised_in_update _ _); cbn -[last_n]; [exact Hh |].
  apply last_n_length.
Qed.

Lemma step_inv (o : op) (w : world) :
  stats_inv w -> stats_inv (snd (step float_of_str o w)).
Proof.
  intros [Hh Hm]. destruct o as [e b | now]; cbn [step].
  - split.
    + now apply eye_hook_history_length.
    + eapply num_leb_trans; [exact Hm |].
      apply eye_hook_max_mono. exact (num_leb_refl_above _ _ Hm).
  - split; [cbn; lia | reflexivity].
Qed.

Lemma run_inv (ops : list op) (w : world) :
  stats_inv w -> stats_inv (run float_of_str ops w).
Proof.
  revert w. induction ops as [| o ops IH]; intros w Hw; [exact Hw |].
  cbn. apply IH, step_inv, Hw.
Qed.

Lemma run_cons (o : op) (ops : list op) (w : world) :
  run float_of_str (o :: ops) w =
  run float_of_str ops (snd (step float_of_str o w)).
Proof. reflexivity. Qed.

Lemma run_app (ops ops' : list op) (w : world) :
  run float_of_str (ops ++ ops') w =
  run float_of_str ops' (run float_of_str ops w).
Proof. unfold run. apply fold_left_app. Qed.

(** A run of ingests never lowers the maximum. *)
Lemma ingests_max_mono (reqs : list (env * body)) (w : world) :
  stats_inv w ->
  num_leb (max_closure_time (eye_statistics w))
    (max_closure_time
       (eye_statistics
          (run float_of_str (map (fun r => Ingest (fst r) (snd r)) reqs) w)))
  = true.
Proof.
  revert w. induction reqs as [| [e b] reqs IH]; intros w Hw.
  - cbn. exact (num_leb_refl_above _ _ (proj2 Hw)).
  - cbn [map fst snd]. rewrite run_cons. cbn [step].
    eapply num_leb_trans.
    + apply eye_hook_max_mono. exact (num_leb_refl_above _ _ (proj2 Hw)).
    + apply (IH (snd (eye_hook float_of_str e b w))).
      exact (step_inv (Ingest e b) w Hw).
Qed.

(** The history after a run of successful ingests: the old history, then
    one entry per ingest, cut to the last fifty. *)
Lemma ingests_history (reqs : list (env * dict)) (w : world) :
  forallb is_ok (responses float_of_str (ingests reqs) w) = true ->
  (List.length (alert_history (eye_statistics w)) <= 50)%nat ->
  alert_history (eye_statistics (run float_of_str (ingests reqs) w)) =
  last_n 50 (alert_history (eye_statistics w) ++ entries reqs).
Proof.
  revert w. induction reqs as [| [e d] reqs IH]; intros w Hok Hh.
  - cbn -[last_n]. rewrite app_nil_r. symmetry. now apply last_n_short.
  - change (ingests ((e, d) :: reqs))
      with (Ingest e (Json (PDict d)) :: ingests reqs) in *.
    change (entries ((e, d) :: reqs)) with (entry_of e d :: entries reqs).
    rewrite run_cons. cbn [responses forallb step] in *.
    apply andb_prop in Hok as [Hr Hok].
    destruct (eye_hook float_of_str e (Json (PDict d)) w) as [r w1] eqn:E.
    cbn [fst snd] in *. destruct r; try discriminate.
    apply eye_hook_ok_inv in E as (d' & s & f & Hb & _ & _ & ->).
    injection Hb as <-.
    rewrite (IH _ Hok) by (cbn -[last_n]; apply last_n_length).
    cbn -[last_n].
    rewrite last_n_app_idem, <- app_assoc. reflexivity.
Qed.

End Invariants.

(** ** The alert counter *)

(** C1.  The claim: a successful ingest adds one to [total_alerts] when
    its alert level is non-null and differs from the level the snapshot
    held just before the ingest.  The code compares with the snapshot
    after overwriting it: starting from the initial snapshot, whose alert
    level is [None], the ingest of [{status: open, alert_level: danger}]
    succeeds, stores the level [danger], and leaves [total_alerts] at 0. *)
Theorem new_alert_level_is_not_counted :
  let r := eye_hook float_of_plain env0 (Json (PDict danger_after_none)) world0 in
  alert_level (latest_eye world0) = PNone /\
  dict_get "alert_level" danger_after_none = PStr "danger" /\
  fst r = Ok200 /\
  alert_level (latest_eye (snd r)) = PStr "danger" /\
  total_alerts (eye_statistics world0) = 0 /\
  total_alerts (eye_statistics (snd r)) = 0.
Proof. vm_compute. repeat split. Qed.

(** ** A malformed duration *)

(** C2.  The claim: a malformed duration never makes a request with a
    status fail.  On [{status: closed, duration: abc}] the duration falls
    back to [0.0] and the snapshot is written, but [update_statistics]
    then compares the raw string with the maximum: the comparison raises
    [TypeError], the request is answered with status 500 and no history
    entry is appended. *)
Theorem closed_with_malformed_duration_fails :
  let r := eye_hook float_of_plain env0 (Json (PDict closed_abc)) world0 in
  py_float float_of_plain (dict_get "duration" closed_abc) = Raise ValueError /\
  fst r = Error500 TypeError /\
  duration (latest_eye (snd r)) = FFin 0 /\
  status (latest_eye (snd r)) = "closed" /\
  alert_history (eye_statistics (snd r)) = [].
Proof. vm_compute. repeat split. Qed.

(** ** The simulated metric *)

(** A comparison of two rational constants. *)
Ltac q_closed := unfold Qle, Qlt; cbn; lia.

(** Rounding a draw between two bounds that are whole thousandths stays
    between them. *)
Lemma round3_uniform_between (lo hi : Q) (a b : Z) (draw : Q) :
  (lo <= hi)%Q ->
  (inject_Z a <= lo * 1000)%Q -> (hi * 1000 <= inject_Z b)%Q ->
  (0 <= draw)%Q -> (draw < 1)%Q ->
  float_between (a # 1000) (b # 1000) (FFin (round3 (uniform lo hi draw))).
Proof.
  intros Hab Ha Hb H0 H1.
  destruct (uniform_between lo hi draw Hab H0 H1) as [Hlo Hhi].
  destruct (round3_between a b (uniform lo hi draw)) as [Ha' Hb'].
  - apply Qle_trans with (lo * 1000)%Q; [exact Ha |].
    apply Qmult_le_compat_r; [exact Hlo | q_closed].
  - apply Qle_trans with (hi * 1000)%Q; [| exact Hb].
    apply Qmult_le_compat_r; [exact Hhi | q_closed].
  - eexists. split; [reflexivity |]. split; assumption.
Qed.

Lemma simulate_ear_in_range (s : string) (draw : Q) :
  (0 <= draw)%Q -> (draw < 1)%Q ->
  metric_in_range s (simulate_ear (lower s) draw).
Proof.
  intros H0 H1. unfold metric_in_range, simulate_ear.
  repeat split.
  - intros ->. cbn [String.eqb Ascii.eqb Bool.eqb].
    destruct (round3_uniform_between (10 # 100) (24 # 100) 100 240 draw)
      as (q & Hq & Hlo & Hhi); try assumption; try q_closed.
    exists q. split; [exact Hq | split].
    + eapply Qle_trans; [| exact Hlo]. q_closed.
    + eapply Qle_trans; [exact Hhi |]. q_closed.
  - intros ->. cbn [String.eqb Ascii.eqb Bool.eqb].
    destruct (round3_uniform_between (250 # 1000) (350 # 1000) 250 350 draw)
      as (q & Hq & Hlo & Hhi); try assumption; try q_closed.
    exists q. split; [exact Hq | split].
    + eapply Qle_trans; [| exact Hlo]. q_closed.
    + eapply Qle_trans; [exact Hhi |]. q_closed.
  - intros Hc Ho.
    destruct (String.eqb_spec (lower s) "closed") as [E | _]; [contradiction |].
    destruct (String.eqb_spec (lower s) "open") as [E | _]; [contradiction |].
    reflexivity.
Qed.

(** C3.  For every status string [s] and every draw of the random source
    in [[0, 1)], the metric a successful ingest stores, in the snapshot and
    in the history entry it appends, lies in [[0.10, 0.24]] when [s]
    lower-cased is [closed], in [[0.25, 0.35]] when it is [open], and is
    [0.0] for every other [s]. *)
Theorem simulated_metric_in_range
  (float_of_str : string -> option pyfloat)
  (e : env) (d : dict) (s : string) (w w' : world) :
  dict_find "status" d = Some (PStr s) ->
  (0 <= random_draw e)%Q -> (random_draw e < 1)%Q ->
  eye_hook float_of_str e (Json (PDict d)) w = (Ok200, w') ->
  metric_in_range s (ear_value (latest_eye w')) /\
  (exists k h,
      alert_history (eye_statistics w') = k ++ [h] /\
      h_ear_value h = ear_value (latest_eye w')).
Proof.
  intros Hs H0 H1 H.
  apply eye_hook_ok_inv in H as (d' & s' & f & Hb & _ & _ & ->).
  injection Hb as <-.
  assert (He : ear_of e d = simulate_ear (lower s) (random_draw e)).
  { unfold ear_of, status_of, dict_get_default. now rewrite Hs. }
  cbn -[last_n]. split.
  - rewrite He. now apply simulate_ear_in_range.
  - destruct (last_n_snoc 50 (alert_history (eye_statistics w)) (entry_of e d))
      as [k Hk]; [lia |].
    exists k, (entry_of e d). split; [exact Hk | reflexivity].
Qed.

Lemma simulated_metric_in_range_witness :
  metric_in_range "CLOSED"
    (ear_value (latest_eye
       (snd (eye_hook float_of_plain env0 (Json (PDict upper_closed_5)) world0)))).
Proof.
  refine (proj1 (simulated_metric_in_range float_of_plain env0 upper_closed_5
                   "CLOSED" world0 _ _ _ _ _)).
  - reflexivity.
  - discriminate.
  - reflexivity.
  - vm_compute. reflexivity.
Defined.

(** ** The bounded history *)

(** C4.  The history holds at most fifty entries in every world the
    server reaches by ingests and resets; a successful ingest appends one
    entry at the back and, at the cap, drops the oldest one at the front;
    after fifty-one successful ingests from an empty history the entries
    kept are those of the second to the fifty-first ingest, in order. *)
Theorem history_is_capped (float_of_str : string -> option pyfloat) :
  (forall hms0 t0 ops,
      (List.length
         (alert_history
            (eye_statistics (run float_of_str ops (initial_world hms0 t0))))
       <= 50)%nat) /\
  (forall e d w w',
      eye_hook float_of_str e (Json (PDict d)) w = (Ok200, w') ->
      let h := alert_history (eye_statistics w) in
      let h' := alert_history (eye_statistics w') in
      ((List.length h < 50)%nat -> h' = h ++ [entry_of e d]) /\
      (List.length h = 50%nat -> h' = tl h ++ [entry_of e d])) /\
  (forall reqs w,
      List.length reqs = 51%nat ->
      alert_history (eye_statistics w) = [] ->
      forallb is_ok (responses float_of_str (ingests reqs) w) = true ->
      let h' := alert_history
                  (eye_statistics (run float_of_str (ingests reqs) w)) in
      h' = tl (entries reqs) /\
      List.length h' = 50%nat /\
      nth_error h' 49 = nth_error (entries reqs) 50 /\
      nth_error h' 0 = nth_error (entries reqs) 1).
Proof.
  split; [| split].
  - intros hms0 t0 ops.
    exact (proj1 (run_inv float_of_str ops _ (stats_inv_initial hms0 t0))).
  - intros e d w w' H.
    apply eye_hook_ok_inv in H as (d' & s & f & Hb & _ & _ & ->).
    injection Hb as <-. cbn -[last_n]. split.
    + intros Hlt. apply last_n_short. rewrite length_app. cbn. lia.
    + intros Hfull. apply last_n_full; [exact Hfull | lia].
  - intros reqs w Hlen Hempty Hok. cbn zeta.
    rewrite (ingests_history float_of_str reqs w Hok)
      by (rewrite Hempty; cbn; lia).
    rewrite Hempty. cbn [app].
    assert (He : List.length (entries reqs) = 51%nat)
      by (unfold entries; now rewrite length_map).
    unfold last_n. rewrite He. cbn [Nat.sub].
    destruct (entries reqs) as [| x l]; [discriminate |].
    cbn in He. cbn. repeat split. lia.
Qed.

Lemma history_is_capped_witness :
  let reqs := repeat (env0, closed_5) 51 in
  alert_history
    (eye_statistics (run float_of_plain (ingests reqs) world0)) =
  tl (entries reqs).
Proof.
  intros reqs.
  refine (proj1 (proj2 (proj2 (history_is_capped float_of_plain))
                   reqs world0 _ _ _)).
  - reflexivity.
  - reflexivity.
  - vm_compute. reflexivity.
Defined.

(** ** Rejected requests *)

(** The validation as far as it goes.  A request whose body is not JSON,
    or is JSON without a [status] field, is not accepted and leaves the
    snapshot and the statistics as they were; when the body is an object,
    [null] or not JSON at all, the answer is status 400 with a message
    that names the reason. *)
Lemma rejection_is_atomic
  (float_of_str : string -> option pyfloat) (e : env) (b : body) (w : world) :
  has_status_field b = false ->
  snd (eye_hook float_of_str e b w) = w /\
  fst (eye_hook float_of_str e b w) <> Ok200 /\
  (object_or_nothing b = true ->
   fst (eye_hook float_of_str e b w) =
   Error400 (match b with
             | NotJson => "Invalid JSON"
             | Json _ => "Missing 'status' in data"
             end)).
Proof.
  intros Hb.
  destruct (eye_hook_cases float_of_str e b w)
    as [[Hw Hr] | (d & s & f & -> & Hs & _)].
  - repeat split; try assumption.
    intros Ho. destruct b as [| v]; [reflexivity |].
    destruct v as [| | | | | | d]; try discriminate; [reflexivity |].
    cbn in Hb. unfold eye_hook, eye_hook_body, bind, lift, ret.
    destruct (truthy (PDict d)); [| reflexivity].
    cbn [negb py_contains_str]. now rewrite Hb.
  - cbn in Hb. unfold dict_mem in Hb. now rewrite Hs in Hb.
Qed.

Lemma rejection_is_atomic_witness :
  snd (eye_hook float_of_plain env0 (Json (PDict no_status)) world0) = world0 /\
  fst (eye_hook float_of_plain env0 (Json (PDict no_status)) world0) =
    Error400 "Missing 'status' in data".
Proof.
  destruct (rejection_is_atomic float_of_plain env0 (Json (PDict no_status))
              world0) as (Hw & _ & Hr).
  - reflexivity.
  - split; [exact Hw | apply Hr; reflexivity].
Defined.

(** C5.  The claim: every request whose body lacks the [status] field is
    rejected with a descriptive error and changes nothing.  The test
    [not data or 'status' not in data] answers 400 for the bodies [0] and
    [null] and for an object without the key, but it does not ask whether
    the body is an object: on the body [5] the membership test raises
    [TypeError], and on the bodies ["my status"] and [["status"]] the test
    passes and [data.get] raises [AttributeError].  These three requests
    are answered 500; the state is untouched, as the claim says. *)
Theorem non_object_body_escapes_validation :
  let post v := eye_hook float_of_plain env0 (Json v) world0 in
  has_status_field (Json (PInt 5)) = false /\
  has_status_field (Json (PStr "my status")) = false /\
  has_status_field (Json (PList [PStr "status"])) = false /\
  post (PInt 5) = (Error500 TypeError, world0) /\
  post (PStr "my status") = (Error500 AttributeError, world0) /\
  post (PList [PStr "status"]) = (Error500 AttributeError, world0) /\
  post (PInt 0) = (Error400 "Missing 'status' in data", world0) /\
  post PNone = (Error400 "Missing 'status' in data", world0) /\
  post (PDict no_status) = (Error400 "Missing 'status' in data", world0).
Proof. vm_compute. repeat split. Qed.

(** ** The stored duration *)

(** C6, as the claim states it, fails: the ingest of
    [{status: open, duration: -5}] succeeds and stores the float [-5.0]. *)
Lemma negative_duration_is_stored :
  let r := eye_hook float_of_plain env0 (Json (PDict open_minus_5)) world0 in
  fst r = Ok200 /\
  duration (latest_eye (snd r)) = FFin (inject_Z (-5)) /\
  float_nonneg (duration (latest_eye (snd r))) = false.
Proof. vm_compute. repeat split. Qed.

(** C6, amended.  After a successful ingest the snapshot's duration is a
    float: [float(v)] when the payload carries a duration [v] that [float]
    accepts, and [0.0] when the duration is absent or [float] rejects it.
    Its sign is the sign of [float(v)]. *)
Theorem duration_is_coerced
  (float_of_str : string -> option pyfloat)
  (e : env) (d : dict) (w w' : world) :
  eye_hook float_of_str e (Json (PDict d)) w = (Ok200, w') ->
  let stored := duration (latest_eye w') in
  match dict_find "duration" d with
  | None => stored = FFin 0
  | Some v =>
      match py_float float_of_str v with
      | Val f => stored = f
      | Raise _ => stored = FFin 0
      end
  end.
Proof.
  intros H.
  apply eye_hook_ok_inv in H as (d' & s & f & Hb & _ & Hf & ->).
  injection Hb as <-. cbn.
  revert Hf. unfold parse_duration, dict_get_default.
  destruct (dict_find "duration" d) as [v |]; cbn; [| congruence].
  destruct (py_float float_of_str v) as [g | []]; congruence.
Qed.

Lemma duration_is_coerced_witness :
  duration
    (latest_eye
       (snd (eye_hook float_of_plain env0 (Json (PDict upper_open_abc)) world0)))
  = FFin 0.
Proof.
  exact (duration_is_coerced float_of_plain env0 upper_open_abc world0 _
           eq_refl).
Defined.

(** ** The longest closure *)

(** What [update_statistics] does for the raw status [closed]: a longer
    numeric duration becomes the maximum. *)
Lemma closed_raises_max
  (float_of_str : string -> option pyfloat)
  (e : env) (d : dict) (v : pyval) (n : pynum) (w w' : world) :
  dict_find "status" d = Some (PStr "closed") ->
  dict_find "duration" d = Some v ->
  as_num v = Some n ->
  num_gtb n (max_closure_time (eye_statistics w)) = true ->
  eye_hook float_of_str e (Json (PDict d)) w = (Ok200, w') ->
  max_closure_time (eye_statistics w') = n.
Proof.
  intros Hs Hd Hn Hgt H.
  apply eye_hook_ok_inv in H as (d' & s & f & Hb & _ & _ & ->).
  injection Hb as <-. cbn.
  unfold new_max, dict_get, dict_get_default. now rewrite Hs, Hd, Hn, Hgt.
Qed.

(** C7.  The claim: an ingest whose status is [closed] in any letter case
    and whose duration exceeds the maximum raises the maximum.
    [update_statistics] tests the status as posted, not the lower-cased
    one: the ingest of [{status: CLOSED, duration: 5.0}] succeeds, stores
    the status [closed] in the snapshot, and leaves the maximum at 0,
    while the same payload with the status [closed] raises it to 5.0. *)
Theorem uppercase_closed_leaves_max :
  let r := eye_hook float_of_plain env0 (Json (PDict upper_closed_5)) world0 in
  let r' := eye_hook float_of_plain env0 (Json (PDict closed_5)) world0 in
  fst r = Ok200 /\
  status (latest_eye (snd r)) = "closed" /\
  num_gtb (NFloat (FFin 5)) (max_closure_time (eye_statistics world0)) = true /\
  max_closure_time (eye_statistics (snd r)) = NInt 0 /\
  fst r' = Ok200 /\
  max_closure_time (eye_statistics (snd r')) = NFloat (FFin 5).
Proof. vm_compute. repeat split. Qed.

(** ** Reset *)

(** C8.  In every world, a reset at time [now] leaves the counters at
    zero, the history empty and the session start at [now], and leaves
    every field of the snapshot as it was. *)
Theorem reset_clears_statistics_only (now : Q) (w : world) :
  let r := reset_statistics now w in
  fst r = Ok200 /\
  total_alerts (eye_statistics (snd r)) = 0 /\
  max_closure_time (eye_statistics (snd r)) = NInt 0 /\
  alert_history (eye_statistics (snd r)) = [] /\
  current_session_start (eye_statistics (snd r)) = now /\
  latest_eye (snd r) = latest_eye w.
Proof. cbn. repeat split. Qed.

(** C9.  In every world the server reaches, an ingest, whatever its
    answer, leaves [max_closure_time] greater than or equal to what it
    was, and so does every sequence of ingests; a reset sets it to 0,
    which is at most the value it had. *)
Theorem max_closure_time_is_monotone
  (float_of_str : string -> option pyfloat)
  (hms0 : string) (t0 : Q) (ops : list op) :
  let w := run float_of_str ops (initial_world hms0 t0) in
  let max_of w := max_closure_time (eye_statistics w) in
  (forall e b,
      num_leb (max_of w) (max_of (snd (eye_hook float_of_str e b w))) = true) /\
  (forall reqs : list (env * body),
      num_leb (max_of w)
        (max_of (run float_of_str
                   (map (fun r => Ingest (fst r) (snd r)) reqs) w)) = true) /\
  (forall now,
      max_of (snd (reset_statistics now w)) = NInt 0 /\
      num_leb (max_of (snd (reset_statistics now w))) (max_of w) = true).
Proof.
  intros w max_of.
  assert (Hw : stats_inv w)
    by (apply run_inv, stats_inv_initial).
  repeat split.
  - intros e b. apply eye_hook_max_mono.
    exact (num_leb_refl_above _ _ (proj2 Hw)).
  - intros reqs. now apply ingests_max_mono.
  - exact (proj2 Hw).
Qed.

(** ** The history entry *)

(** C10.  The entry a successful ingest appends carries the payload's
    status as posted and the payload's duration as posted, the int [0]
    when absent, while the snapshot carries the lower-cased status and the
    coerced float; the entry's [ear_value] is the snapshot's.  The two
    statuses and the two durations can differ: after the ingest of
    [{status: OPEN, duration: abc}] the entry holds [OPEN] and [abc], the
    snapshot [open] and [0.0]. *)
Theorem history_entry_keeps_raw_payload
  (float_of_str : string -> option pyfloat) :
  (forall e d w w',
      eye_hook float_of_str e (Json (PDict d)) w = (Ok200, w') ->
      exists k h s,
        alert_history (eye_statistics w') = k ++ [h] /\
        dict_find "status" d = Some (PStr s) /\
        h_status h = PStr s /\
        status (latest_eye w') = lower s /\
        h_duration h = dict_get_default "duration" (PInt 0) d /\
        parse_duration float_of_str d = Val (duration (latest_eye w')) /\
        h_ear_value h = ear_value (latest_eye w')) /\
  (let r := eye_hook float_of_plain env0 (Json (PDict upper_open_abc)) world0 in
   exists h,
     fst r = Ok200 /\
     alert_history (eye_statistics (snd r)) = [h] /\
     h_status h = PStr "OPEN" /\
     status (latest_eye (snd r)) = "open" /\
     h_duration h = PStr "abc" /\
     duration (latest_eye (snd r)) = FFin 0 /\
     py_eq (h_duration h) (PFloat (duration (latest_eye (snd r)))) = false /\
     h_ear_value h = ear_value (latest_eye (snd r))).
Proof.
  split.
  - intros e d w w' H.
    apply eye_hook_ok_inv in H as (d' & s & f & Hb & Hs & Hf & ->).
    injection Hb as <-.
    destruct (last_n_snoc 50 (alert_history (eye_statistics w)) (entry_of e d))
      as [k Hk]; [lia |].
    exists k, (entry_of e d), s. cbn -[last_n].
    repeat split; try assumption.
    + unfold dict_get, dict_get_default. now rewrite Hs.
    + unfold status_of, dict_get_default. now rewrite Hs.
  - eexists. vm_compute. repeat split.
Qed.

Lemma history_entry_keeps_raw_payload_witness :
  exists k h,
    alert_history
      (eye_statistics
         (snd (eye_hook float_of_plain env0 (Json (PDict upper_closed_5))
                 world0))) = k ++ [h] /\
    h_status h = PStr "CLOSED".
Proof.
  destruct (proj1 (history_entry_keeps_raw_payload float_of_plain)
              env0 upper_closed_5 world0 _ eq_refl)
    as (k & h & s & Hk & Hs & Hh & _).
  exists k, h. split; [exact Hk |].
  rewrite Hh. vm_compute in Hs. injection Hs as <-. reflexivity.
Defined.

(** ** Further properties of the ingestion handler *)

Import Events.

Section Outcome.

Variable float_of_str : string -> option pyfloat.

(** The three ways a request can end: nothing written; the snapshot
    written and [update_statistics] interrupted; everything written. *)
Lemma eye_hook_outcome (e : env) (b : body) (w : world) :
  (snd (eye_hook float_of_str e b w) = w /\
   fst (eye_hook float_of_str e b w) <> Ok200) \/
  (exists d s f,
      b = Json (PDict d) /\
      dict_find "status" d = Some (PStr s) /\
      parse_duration float_of_str d = Val f /\
      eye_hook float_of_str e b w =
      match raised_in_update d (max_closure_time (eye_statistics w)) with
      | Some x => (Error500 x, interrupted e d f w)
      | None => (Ok200, ingested e d f w)
      end).
Proof.
  destruct (eye_hook_cases float_of_str e b w)
    as [H | (d & s & f & -> & Hs & Hf)]; [now left | right].
  exists d, s, f. repeat split; try assumption.
  now rewrite (eye_hook_writes float_of_str e d s f w Hs Hf), after_write_eq.
Qed.

(** A request that writes nothing is answered with an error that is not
    a success; one answered 400 is of that kind. *)
Lemma eye_hook_400_unchanged (e : env) (b : body) (w w' : world) (msg : string) :
  eye_hook float_of_str e b w = (Error400 msg, w') -> w' = w.
Proof.
  intros H.
  destruct (eye_hook_outcome e b w) as [[Hw _] | (d & s & f & _ & _ & _ & E)].
  - rewrite H in Hw. exact Hw.
  - rewrite H in E. destruct (raised_in_update _ _); discriminate.
Qed.


(** Two floats that are not NaN are ordered one way or the other. *)
Lemma float_not_gtb_leb (a b : pyfloat) :
  float_leb a a = true -> float_leb b b = true ->
  float_gtb a b = false -> float_leb a b = true.
Proof.
  destruct a as [| [|] | x], b as [| [|] | y]; simpl; try congruence.
  intros _ _ H. now destruct (Qle_bool x y).
Qed.

Lemma lower_ascii_idem (c : ascii) : lower_ascii (lower_ascii c) = lower_ascii c.
Proof.
  destruct c as [[|] [|] [|] [|] [|] [|] [|] [|]]; reflexivity.
Qed.

Lemma lower_idem (s : string) : lower (lower s) = lower s.
Proof.
  induction s as [| c s IH]; [reflexivity |].
  cbn. now rewrite lower_ascii_idem, IH.
Qed.

End Outcome.

Section UpdateFacts.


Lemma counted_total_alerts (d : dict) (w : world) :
  total_alerts (eye_statistics w) <= total_alerts (counted d w)
  <= total_alerts (eye_statistics w) + 1.
Proof. unfold counted; cbn. destruct (counts_alert _ _); lia. Qed.

End UpdateFacts.

(** X1.  An ingest, whatever its body and its answer, leaves
    [total_alerts] where it was or one higher; over a sequence of ingests
    the counter never decreases and grows by at most the number of
    requests. *)
Theorem total_alerts_steps
  (float_of_str : string -> option pyfloat) (w : world) :
  let total w := total_alerts (eye_statistics w) in
  (forall e b,
      total w <= total (snd (eye_hook float_of_str e b w)) <= total w + 1) /\
  (forall reqs : list (env * body),
      total w
      <= total (run float_of_str (map (fun r => Ingest (fst r) (snd r)) reqs) w)
      <= total w + Z.of_nat (List.length reqs)).
Proof.
  intros total.
  assert (Hstep : forall e b w,
             total w <= total (snd (eye_hook float_of_str e b w)) <= total w + 1).
  { intros e b w0. unfold total.
    destruct (eye_hook_outcome float_of_str e b w0)
      as [[-> _] | (d & s & f & _ & _ & _ & ->)]; [lia |].
    destruct (raised_in_update _ _); cbn [snd interrupted ingested eye_statistics
                                          total_alerts];
      apply (counted_total_alerts d
               {| latest_eye := written e d f;
                  eye_statistics := eye_statistics w0 |}). }
  split; [intros e b; apply Hstep |].
  intros reqs. revert w. induction reqs as [| [e b] reqs IH]; intros w.
  - cbn. lia.
  - cbn [map fst snd]. rewrite run_cons. cbn [step List.length].
    specialize (IH (snd (eye_hook float_of_str e b w))).
    specialize (Hstep e b w). lia.
Qed.

(** X2.  When the payload's alert level is absent, null or a string, the
    ingest leaves [total_alerts] unchanged, whatever the level the
    snapshot held before and whatever the answer. *)
Theorem string_alert_level_never_counted
  (float_of_str : string -> option pyfloat) (e : env) (d : dict) (w : world) :
  (dict_get "alert_level" d = PNone \/
   exists s, dict_get "alert_level" d = PStr s) ->
  total_alerts (eye_statistics (snd (eye_hook float_of_str e (Json (PDict d)) w)))
  = total_alerts (eye_statistics w).
Proof.
  intros Hl.
  destruct (eye_hook_outcome float_of_str e (Json (PDict d)) w)
    as [[-> _] | (d' & s & f & Hb & _ & _ & ->)]; [reflexivity |].
  injection Hb as <-.
  destruct (raised_in_update _ _);
    cbn [snd interrupted ingested eye_statistics total_alerts];
    unfold counted; cbn [latest_eye eye_statistics total_alerts];
    now rewrite (counts_alert_after_write e d f Hl).
Qed.

Lemma string_alert_level_never_counted_witness :
  total_alerts
    (eye_statistics
       (snd (eye_hook float_of_plain env0 (Json (PDict danger_after_none))
               world0)))
  = total_alerts (eye_statistics world0).
Proof.
  apply (string_alert_level_never_counted float_of_plain env0 danger_after_none).
  right. exists "danger". reflexivity.
Defined.



(** X4.  When the status is exactly [closed] and the payload carries a
    duration, the value of the duration decides the answer: a value that
    is not a number is answered 500 for the [TypeError] of the comparison
    with the maximum, an int too large for a float is answered 500 for the
    [OverflowError] of [float], and every other number is accepted. *)
Theorem closed_answer_by_duration
  (float_of_str : string -> option pyfloat)
  (e : env) (d : dict) (v : pyval) (w : world) :
  dict_find "status" d = Some (PStr "closed") ->
  dict_find "duration" d = Some v ->
  fst (eye_hook float_of_str e (Json (PDict d)) w) =
  match as_num v with
  | None => Error500 TypeError
  | Some _ =>
      match py_float float_of_str v with
      | Val _ => Ok200
      | Raise x => Error500 x
      end
  end.
Proof.
  intros Hs Hd.
  destruct (as_num v) as [n |] eqn:Hn.
  - destruct (py_float float_of_str v) as [f | x] eqn:Hf.
    + assert (Hp : parse_duration float_of_str d = Val f).
      { unfold parse_duration, dict_get_default. now rewrite Hd, Hf. }
      rewrite (eye_hook_writes float_of_str e d _ f w Hs Hp), after_write_eq.
      unfold raised_in_update, dict_get, dict_get_default.
      rewrite Hs, Hd, Hn. cbn -[num_gtb].
      now destruct (num_gtb _ _).
    + assert (Hx : x = OverflowError).
      { destruct v; try discriminate; unfold py_float in Hf;
          try discriminate.
        destruct (Z.abs z <? float_overflow); congruence. }
      subst x.
      assert (Hp : parse_duration float_of_str d = Raise OverflowError).
      { unfold parse_duration, dict_get_default. now rewrite Hd, Hf. }
      assert (Ht : truthy (PDict d) = true)
        by (destruct d; [discriminate | reflexivity]).
      unfold eye_hook, eye_hook_body, bind, lift, ret.
      rewrite Ht. cbn [negb py_contains_str]. unfold dict_mem.
      now rewrite Hs, Hp.
  - destruct (closed_non_numeric_duration_raises float_of_str e d v w Hs Hd Hn)
      as (f & _ & ->). reflexivity.
Qed.

Lemma closed_answer_by_duration_witness :
  fst (eye_hook float_of_plain env0 (Json (PDict closed_abc)) world0)
  = Error500 TypeError.
Proof.
  exact (closed_answer_by_duration float_of_plain env0 closed_abc
           (PStr "abc") world0 eq_refl eq_refl).
Defined.



(** X6.  Unless the payload's status is exactly the string [closed], an
    ingest leaves [max_closure_time] as it was, however long the duration
    it reports. *)
Theorem other_status_keeps_max
  (float_of_str : string -> option pyfloat) (e : env) (d : dict) (w : world) :
  dict_get "status" d <> PStr "closed" ->
  max_closure_time
    (eye_statistics (snd (eye_hook float_of_str e (Json (PDict d)) w)))
  = max_closure_time (eye_statistics w).
Proof.
  intros Hne.
  destruct (eye_hook_outcome float_of_str e (Json (PDict d)) w)
    as [[-> _] | (d' & s & f & Hb & _ & _ & ->)]; [reflexivity |].
  injection Hb as <-.
  destruct (raised_in_update _ _); [reflexivity |].
  cbn. unfold new_max.
  destruct (py_eq _ _) eqn:Hc; [| reflexivity].
  apply py_eq_str in Hc. contradiction.
Qed.

Lemma other_status_keeps_max_witness :
  max_closure_time
    (eye_statistics
       (snd (eye_hook float_of_plain env0 (Json (PDict upper_closed_5)) world0)))
  = max_closure_time (eye_statistics world0).
Proof.
  apply (other_status_keeps_max float_of_plain env0 upper_closed_5 world0).
  discriminate.
Defined.

(** X7.  After an accepted ingest whose status is exactly [closed] and
    whose duration is a number other than NaN, the maximum is the larger
    of the previous maximum and that duration: it bounds both from above
    and is one of the two. *)
Theorem closed_duration_bounds_max
  (float_of_str : string -> option pyfloat)
  (e : env) (d : dict) (v : pyval) (n : pynum) (w w' : world) :
  dict_find "status" d = Some (PStr "closed") ->
  dict_find "duration" d = Some v ->
  as_num v = Some n ->
  num_leb n n = true ->
  num_leb (max_closure_time (eye_statistics w))
          (max_closure_time (eye_statistics w)) = true ->
  eye_hook float_of_str e (Json (PDict d)) w = (Ok200, w') ->
  let m := max_closure_time (eye_statistics w) in
  let m' := max_closure_time (eye_statistics w') in
  num_leb n m' = true /\ num_leb m m' = true /\ (m' = n \/ m' = m).
Proof.
  intros Hs Hd Hn Hnn Hmm H.
  apply eye_hook_ok_inv in H as (d' & s & f & Hb & _ & _ & ->).
  injection Hb as <-. cbn.
  unfold new_max, dict_get, dict_get_default. rewrite Hs, Hd, Hn.
  cbn -[num_gtb num_leb].
  destruct (num_gtb n (max_closure_time (eye_statistics w))) eqn:Hg.
  - repeat split; [exact Hnn | now apply num_gtb_leb | now left].
  - repeat split; [| exact Hmm | now right].
    now apply float_not_gtb_leb.
Qed.

Lemma closed_duration_bounds_max_witness :
  num_leb (NFloat (FFin 5))
    (max_closure_time
       (eye_statistics
          (snd (eye_hook float_of_plain env0 (Json (PDict closed_5)) world0))))
  = true.
Proof.
  refine (proj1 (closed_duration_bounds_max float_of_plain env0 closed_5
                   (PFloat (FFin 5)) (NFloat (FFin 5)) world0 _
                   eq_refl eq_refl eq_refl eq_refl eq_refl _)).
  vm_compute. reflexivity.
Defined.

(** X8.  An accepted ingest overwrites the snapshot in full: what it
    stores is the same whatever the world before, and the alert fields,
    the sensitivity (1.0 when absent) and the timestamp are those of the
    request. *)
Theorem snapshot_overwritten_in_full
  (float_of_str : string -> option pyfloat)
  (e : env) (d : dict) (w1 w2 w1' w2' : world) :
  eye_hook float_of_str e (Json (PDict d)) w1 = (Ok200, w1') ->
  eye_hook float_of_str e (Json (PDict d)) w2 = (Ok200, w2') ->
  latest_eye w1' = latest_eye w2' /\
  alert_level (latest_eye w1') = dict_get "alert_level" d /\
  alert_type (latest_eye w1') = dict_get "alert_type" d /\
  alert_message (latest_eye w1') = dict_get "alert_message" d /\
  sensitivity (latest_eye w1') =
    dict_get_default "sensitivity" (PFloat (FFin 1)) d /\
  timestamp (latest_eye w1') = now_snapshot e.
Proof.
  intros H1 H2.
  apply eye_hook_ok_inv in H1 as (d1 & s1 & f1 & Hb1 & _ & Hf1 & ->).
  apply eye_hook_ok_inv in H2 as (d2 & s2 & f2 & Hb2 & _ & Hf2 & ->).
  injection Hb1 as <-. injection Hb2 as <-.
  assert (f1 = f2) by congruence. subst f2.
  cbn. repeat split.
Qed.

Lemma snapshot_overwritten_in_full_witness :
  sensitivity
    (latest_eye
       (snd (eye_hook float_of_plain env0 (Json (PDict closed_5)) world0)))
  = PFloat (FFin 1).
Proof.
  refine (proj1 (proj2 (proj2 (proj2 (proj2
            (snapshot_overwritten_in_full float_of_plain env0 closed_5
               world0 world0 _ _ eq_refl eq_refl)))))).
Defined.

(** X9.  The status an accepted ingest stores is in lower case, and the
    metric stored with it is the simulation for that stored status: the
    snapshot never pairs [closed] or [open] with the metric of another
    status. *)
Theorem stored_status_is_lower_case
  (float_of_str : string -> option pyfloat)
  (e : env) (b : body) (w w' : world) :
  eye_hook float_of_str e b w = (Ok200, w') ->
  lower (status (latest_eye w')) = status (latest_eye w') /\
  ear_value (latest_eye w') =
    simulate_ear (status (latest_eye w')) (random_draw e).
Proof.
  intros H.
  apply eye_hook_ok_inv in H as (d & s & f & -> & Hs & _ & ->).
  cbn. unfold ear_of, status_of, dict_get_default. rewrite Hs. cbn.
  split; [apply lower_idem | reflexivity].
Qed.

Lemma stored_status_is_lower_case_witness :
  let w' := snd (eye_hook float_of_plain env0 (Json (PDict upper_closed_5))
                   world0) in
  lower (status (latest_eye w')) = status (latest_eye w').
Proof.
  exact (proj1 (stored_status_is_lower_case float_of_plain env0
                  (Json (PDict upper_closed_5)) world0 _ eq_refl)).
Defined.

Section HistoryLength.

Context {A : Type}.

Lemma last_n_length_min (n : nat) (l : list A) :
  List.length (last_n n l) = Nat.min n (List.length l).
Proof. unfold last_n. rewrite length_skipn. lia. Qed.

End HistoryLength.

(** X10.  After any number of accepted ingests the history is the
    previous history followed by one entry per ingest, in the order of the
    requests, cut to its last fifty entries; its length is the smaller of
    fifty and the previous length plus the number of ingests. *)
Theorem history_after_ingests
  (float_of_str : string -> option pyfloat)
  (reqs : list (env * dict)) (w : world) :
  (List.length (alert_history (eye_statistics w)) <= 50)%nat ->
  forallb is_ok (responses float_of_str (ingests reqs) w) = true ->
  let h := alert_history (eye_statistics w) in
  let h' := alert_history
              (eye_statistics (run float_of_str (ingests reqs) w)) in
  h' = last_n 50 (h ++ entries reqs) /\
  List.length h' = Nat.min 50 (List.length h + List.length reqs).
Proof.
  intros Hh Hok. cbn zeta.
  rewrite (ingests_history float_of_str reqs w Hok Hh).
  split; [reflexivity |].
  rewrite last_n_length_min, length_app. unfold entries.
  now rewrite length_map.
Qed.

Lemma history_after_ingests_witness :
  List.length
    (alert_history
       (eye_statistics
          (run float_of_plain (ingests (repeat (env0, closed_5) 3)) world0)))
  = 3%nat.
Proof.
  refine (proj2 (history_after_ingests float_of_plain
                   (repeat (env0, closed_5) 3) world0 _ _)).
  - cbn. lia.
  - vm_compute. reflexivity.
Defined.

(** X11.  No ingest touches the session start: after any sequence of
    ingests and resets it is the time of the last reset, or the start it
    had when there was none. *)
Theorem session_start_is_last_reset
  (float_of_str : string -> option pyfloat) (ops : list op) (w : world) :
  current_session_start (eye_statistics (run float_of_str ops w)) =
  session_start_after ops (current_session_start (eye_statistics w)).
Proof.
  revert w. induction ops as [| o ops IH]; intros w; [reflexivity |].
  rewrite run_cons, IH. unfold session_start_after. cbn [fold_left].
  f_equal. destruct o as [e b | now]; [| reflexivity].
  cbn [step].
  destruct (eye_hook_outcome float_of_str e b w)
    as [[-> _] | (d & s & f & _ & _ & _ & ->)]; [reflexivity |].
  now destruct (raised_in_update _ _).
Qed.

(** ** Properties of what is sent *)

(** X12.  An accepted ingest sends two events to every client, the
    snapshot and then the statistics, both as the ingest left them; a
    client that connects right after is sent the same two payloads, to
    its own room only, followed by the roster. *)
Theorem connect_replays_broadcast
  (float_of_str : string -> option pyfloat)
  (e : env) (b : body) (w w' : world) (out : list emission) (sid : string) :
  eye_hook_emitting float_of_str e b w = (Ok200, w', out) ->
  map emitted out =
    [eye_status (latest_eye w'); statistics_update (eye_statistics w')] /\
  map room out = [None; None] /\
  map emitted (handle_connect sid w') =
    map emitted out ++ [drivers_update drivers_data] /\
  map room (handle_connect sid w') = [Some sid; Some sid; Some sid].
Proof.
  unfold eye_hook_emitting.
  destruct (eye_hook float_of_str e b w) as [r w1].
  intros H. injection H as -> -> <-. repeat split.
Qed.

Lemma connect_replays_broadcast_witness :
  map room
    (snd (eye_hook_emitting float_of_plain env0 (Json (PDict closed_5)) world0))
  = [None; None].
Proof.
  refine (proj1 (proj2 (connect_replays_broadcast float_of_plain env0
                          (Json (PDict closed_5)) world0 _ _ "sid" _))).
  vm_compute. reflexivity.
Defined.

(** X13.  An ingest interrupted in [update_statistics] sends nothing,
    although it has already overwritten the snapshot: under the status
    [closed] with a duration that is not a number, no client is told, and
    a client that connects afterwards is sent the snapshot of the failed
    request. *)
Theorem interrupted_ingest_is_not_broadcast
  (float_of_str : string -> option pyfloat)
  (e : env) (d : dict) (v : pyval) (w : world) (sid : string) :
  dict_find "status" d = Some (PStr "closed") ->
  dict_find "duration" d = Some v ->
  as_num v = None ->
  exists w',
    eye_hook_emitting float_of_str e (Json (PDict d)) w =
      (Error500 TypeError, w', []) /\
    status (latest_eye w') = "closed" /\
    timestamp (latest_eye w') = now_snapshot e /\
    alert_level (latest_eye w') = dict_get "alert_level" d /\
    hd_error (handle_connect sid w') =
      Some (to_room sid (eye_status (latest_eye w'))).
Proof.
  intros Hs Hd Hn.
  destruct (closed_non_numeric_duration_raises float_of_str e d v w Hs Hd Hn)
    as (f & _ & H).
  exists (interrupted e d f w). unfold eye_hook_emitting. rewrite H.
  cbn. unfold status_of, dict_get_default. rewrite Hs. repeat split.
Qed.

Lemma interrupted_ingest_is_not_broadcast_witness :
  exists w',
    eye_hook_emitting float_of_plain env0 (Json (PDict closed_abc)) world0 =
      (Error500 TypeError, w', []) /\
    timestamp (latest_eye w') = now_snapshot env0.
Proof.
  destruct (interrupted_ingest_is_not_broadcast float_of_plain env0 closed_abc
              (PStr "abc") world0 "sid" eq_refl eq_refl eq_refl)
    as (w' & H & _ & Ht & _).
  exists w'. split; assumption.
Defined.



(** ** Properties of the validation and of the simulation *)

(** X15.  Whatever the two draws, the metric simulated for [closed] is
    below the metric simulated for [open]. *)
Theorem closed_metric_below_open (r1 r2 : Q) :
  (0 <= r1)%Q -> (r1 < 1)%Q -> (0 <= r2)%Q -> (r2 < 1)%Q ->
  exists q1 q2,
    simulate_ear "closed" r1 = FFin q1 /\
    simulate_ear "open" r2 = FFin q2 /\
    (q1 < q2)%Q.
Proof.
  intros H1 H1' H2 H2'.
  destruct (simulate_ear_in_range "closed" r1 H1 H1') as (Hc & _ & _).
  destruct (simulate_ear_in_range "open" r2 H2 H2') as (_ & Ho & _).
  destruct (Hc eq_refl) as (q1 & E1 & _ & Hhi).
  destruct (Ho eq_refl) as (q2 & E2 & Hlo & _).
  exists q1, q2. repeat split; try assumption.
  eapply Qle_lt_trans; [exact Hhi |].
  eapply Qlt_le_trans; [| exact Hlo]. reflexivity.
Qed.

Lemma closed_metric_below_open_witness :
  exists q1 q2,
    simulate_ear "closed" (9 # 10) = FFin q1 /\
    simulate_ear "open" 0 = FFin q2 /\
    (q1 < q2)%Q.
Proof.
  apply closed_metric_below_open; (discriminate || reflexivity).
Defined.

(** X16.  The only duration that makes the parsing step of [eye_hook]
    fail is an int of magnitude at least [2^1024 - 2^970]: [float] raises
    [OverflowError] on it, which the handler does not catch, and a request
    with a status that carries it is answered 500 before anything is
    written. *)
Theorem duration_parsing_fails_only_on_huge_int
  (float_of_str : string -> option pyfloat) (d : dict) :
  (forall x,
      parse_duration float_of_str d = Raise x ->
      x = OverflowError /\
      exists z, dict_find "duration" d = Some (PInt z) /\
                float_overflow <= Z.abs z) /\
  (forall e z w,
      dict_mem "status" d = true ->
      dict_find "duration" d = Some (PInt z) ->
      float_overflow <= Z.abs z ->
      eye_hook float_of_str e (Json (PDict d)) w = (Error500 OverflowError, w)).
Proof.
  split.
  - intros x. unfold parse_duration, dict_get_default.
    destruct (dict_find "duration" d) as [v |]; [| discriminate].
    destruct v as [| b | z | f | s | l | d']; unfold py_float;
      try discriminate.
    + destruct (Z.ltb_spec (Z.abs z) float_overflow) as [Hlt | Hge];
        [discriminate |].
      intros H. split; [congruence |]. now exists z.
    + destruct (float_of_str s); discriminate.
  - intros e z w Hs Hd Hz.
    assert (Hp : parse_duration float_of_str d = Raise OverflowError).
    { unfold parse_duration, dict_get_default, py_float. rewrite Hd.
      destruct (Z.ltb_spec (Z.abs z) float_overflow) as [Hlt | Hge];
        [lia | reflexivity]. }
    assert (Ht : truthy (PDict d) = true)
      by (destruct d; [discriminate | reflexivity]).
    unfold eye_hook, eye_hook_body, bind, lift, ret.
    rewrite Ht. cbn [negb py_contains_str]. now rewrite Hs, Hp.
Qed.

Lemma duration_parsing_fails_only_on_huge_int_witness :
  eye_hook float_of_plain env0
    (Json (PDict [("status", PStr "open"); ("duration", PInt (2 ^ 1024))]))
    world0
  = (Error500 OverflowError, world0).
Proof.
  apply (proj2 (duration_parsing_fails_only_on_huge_int float_of_plain
                  [("status", PStr "open"); ("duration", PInt (2 ^ 1024))])
           env0 (2 ^ 1024) world0).
  - reflexivity.
  - reflexivity.
  - vm_compute. discriminate.
Defined.

(** X17.  A JSON body that is not an object never changes the state and
    is never accepted, but only some are answered 400: a number or bool
    other than zero and [false] is answered 500 for the [TypeError] of the
    membership test, and a string or list that contains [status] is
    answered 500 for the [AttributeError] of [data.get]. *)
Theorem non_object_body_answer
  (float_of_str : string -> option pyfloat) (e : env) (v : pyval) (w : world) :
  (forall d, v <> PDict d) ->
  eye_hook float_of_str e (Json v) w =
  (match v with
   | PBool true => Error500 TypeError
   | PInt z => if z =? 0 then Error400 "Missing 'status' in data"
               else Error500 TypeError
   | PFloat f => if float_eqb f (FFin 0)
                 then Error400 "Missing 'status' in data"
                 else Error500 TypeError
   | PStr t => if str_contains "status" t then Error500 AttributeError
               else Error400 "Missing 'status' in data"
   | PList l => if existsb (py_eq_in true (PStr "status")) l
                then Error500 AttributeError
                else Error400 "Missing 'status' in data"
   | _ => Error400 "Missing 'status' in data"
   end, w).
Proof.
  intros Hv. unfold eye_hook, eye_hook_body, bind, lift, ret.
  destruct v as [| [|] | z | f | t | l | d]; cbn [truthy negb py_contains_str];
    try reflexivity.
  - now destruct (z =? 0).
  - now destruct (float_eqb f (FFin 0)).
  - destruct t as [| c t]; [reflexivity |].
    cbn [String.eqb negb]. now destruct (str_contains "status" (String c t)).
  - destruct l as [| x l]; [reflexivity |].
    now destruct (existsb _ (x :: l)).
  - now elim (Hv d).
Qed.

Lemma non_object_body_answer_witness :
  eye_hook float_of_plain env0 (Json (PInt 5)) world0 =
  (Error500 TypeError, world0).
Proof.
  apply (non_object_body_answer float_of_plain env0 (PInt 5) world0).
  discriminate.
Defined.

(** ** The statistics do not depend on the previous snapshot *)

Section Independence.

Variable float_of_str : string -> option pyfloat.

(** A request that stops before the snapshot is written gets an answer
    fixed by the request alone. *)
Lemma eye_hook_early (e : env) (b : body) :
  (exists r, r <> Ok200 /\ forall w, eye_hook float_of_str e b w = (r, w)) \/
  (exists d s f,
      b = Json (PDict d) /\
      dict_find "status" d = Some (PStr s) /\
      parse_duration float_of_str d = Val f).
Proof.
  destruct b as [| v].
  { left. eexists. split; [| reflexivity]. discriminate. }
  unfold eye_hook, eye_hook_body, bind, lift, ret.
  destruct v as [| [|] | z | x | t | l | d];
    cbn [truthy negb py_contains_str].
  1-3: left; eexists; (split; [| reflexivity]); discriminate.
  - destruct (z =? 0); cbn [negb];
      left; eexists; (split; [| reflexivity]); discriminate.
  - destruct (float_eqb x (FFin 0)); cbn [negb];
      left; eexists; (split; [| reflexivity]); discriminate.
  - destruct (String.eqb t EmptyString); cbn [negb];
      [| destruct (str_contains "status" t); cbn [negb]];
      left; eexists; (split; [| reflexivity]); discriminate.
  - destruct l as [| y l];
      [| destruct (existsb (py_eq_in true (PStr "status")) (y :: l));
         cbn [negb]];
      left; eexists; (split; [| reflexivity]); discriminate.
  - destruct (match d with [] => false | _ :: _ => true end) eqn:Ht;
      cbn [negb].
    2: { left. eexists. split; [| reflexivity]. discriminate. }
    unfold dict_mem, dict_get_default.
    destruct (dict_find "status" d) as [v |] eqn:Hs; cbn [negb].
    2: { left. eexists. split; [| reflexivity]. discriminate. }
    destruct (parse_duration float_of_str d) as [f | x] eqn:Hf.
    2: { left. eexists. split; [| reflexivity]. discriminate. }
    destruct v as [| c | z | x | t | l | d'].
    5: { right. now exists d, t, f. }
    all: left; eexists; (split; [| reflexivity]); discriminate.
Qed.

(** The answer to an ingest and the statistics it leaves are functions of
    the request and of the statistics before: the snapshot before plays no
    part. *)
Lemma eye_hook_ignores_snapshot (e : env) (b : body) (w1 w2 : world) :
  eye_statistics w1 = eye_statistics w2 ->
  fst (eye_hook float_of_str e b w1) = fst (eye_hook float_of_str e b w2) /\
  eye_statistics (snd (eye_hook float_of_str e b w1)) =
  eye_statistics (snd (eye_hook float_of_str e b w2)) /\
  (fst (eye_hook float_of_str e b w1) = Ok200 ->
   snd (eye_hook float_of_str e b w1) = snd (eye_hook float_of_str e b w2)).
Proof.
  intros Hst.
  destruct (eye_hook_early e b) as [(r & Hr & H) | (d & s & f & -> & Hs & Hf)].
  - rewrite !H. cbn. repeat split; [exact Hst | contradiction].
  - rewrite !(eye_hook_writes float_of_str e d s f _ Hs Hf), !after_write_eq.
    rewrite <- Hst.
    destruct (raised_in_update _ _); cbn; unfold ingested, counted; cbn;
      rewrite <- Hst; repeat split; discriminate.
Qed.

End Independence.

(** X18.  The answer to an ingest and the statistics it leaves depend on
    the request and on the statistics before it, never on the snapshot
    before it; so from a reset onwards the statistics and the answers are
    those of a process started at the reset, whatever happened earlier, and
    an accepted ingest leaves the whole state the same. *)
Theorem statistics_ignore_previous_snapshot
  (float_of_str : string -> option pyfloat) :
  (forall e b w1 w2,
      eye_statistics w1 = eye_statistics w2 ->
      fst (eye_hook float_of_str e b w1) = fst (eye_hook float_of_str e b w2) /\
      eye_statistics (snd (eye_hook float_of_str e b w1)) =
      eye_statistics (snd (eye_hook float_of_str e b w2)) /\
      (fst (eye_hook float_of_str e b w1) = Ok200 ->
       snd (eye_hook float_of_str e b w1) =
       snd (eye_hook float_of_str e b w2))) /\
  (forall now ops w1 w2,
      eye_statistics (run float_of_str (Reset now :: ops) w1) =
      eye_statistics (run float_of_str (Reset now :: ops) w2) /\
      responses float_of_str (Reset now :: ops) w1 =
      responses float_of_str (Reset now :: ops) w2).
Proof.
  split; [intros e b w1 w2; apply eye_hook_ignores_snapshot |].
  assert (Hrun : forall ops w1 w2,
             eye_statistics w1 = eye_statistics w2 ->
             eye_statistics (run float_of_str ops w1) =
             eye_statistics (run float_of_str ops w2) /\
             responses float_of_str ops w1 = responses float_of_str ops w2).
  { induction ops as [| o ops IH]; intros w1 w2 Hst; [now split |].
    rewrite !run_cons. cbn [responses].
    assert (Hstep : fst (step float_of_str o w1) = fst (step float_of_str o w2) /\
                    eye_statistics (snd (step float_of_str o w1)) =
                    eye_statistics (snd (step float_of_str o w2))).
    { destruct o as [e b | now]; cbn [step]; [| now split].
      destruct (eye_hook_ignores_snapshot float_of_str e b w1 w2 Hst)
        as (Hr & Hs & _). now split. }
    destruct Hstep as [Hr Hs].
    destruct (IH _ _ Hs) as [IH1 IH2]. split; [exact IH1 |].
    now rewrite Hr, IH2. }
  intros now ops w1 w2.
  rewrite !run_cons. cbn [responses step reset_statistics fst snd].
  destruct (Hrun ops
              {| latest_eye := latest_eye w1;
                 eye_statistics := fresh_statistics now |}
              {| latest_eye := latest_eye w2;
                 eye_statistics := fresh_statistics now |} eq_refl)
    as [H1 H2].
  split; [exact H1 | now rewrite H2].
Qed.

Lemma statistics_ignore_previous_snapshot_witness :
  fst (eye_hook float_of_plain env0 (Json (PDict danger_after_none)) world0) =
  fst (eye_hook float_of_plain env0 (Json (PDict danger_after_none))
         (snd (eye_hook float_of_plain env0 (Json (PDict closed_abc)) world0))).
Proof.
  apply (proj1 (statistics_ignore_previous_snapshot float_of_plain)).
  reflexivity.
Defined.
